(** * Branch cleanup action: a shallow embedding of
      [.github/actions/branch-cleanup/index.js] and the properties of its
      retention engine.

    The action is a single class, [BranchCleanup], whose [run] method walks the
    branches of a repository and deletes the stale ones.  The class talks to
    three things that are not part of the repository: the GitHub REST client
    ([octokit]), the JavaScript host (clock, time zone, regular expressions)
    and the Actions toolkit ([core.setOutput], [core.setFailed]).  The first
    two are taken as parameters ([Octokit], [Host]); the calls made to the
    first and the third are recorded, in order, in a list of [Effect]s.

    Calls to [this.log] and [console.log] only print; they never throw and
    never change the instance, so they are left out, together with
    [getDaysAgo], whose result is only printed. *)

From Stdlib Require Import ZArith List Ascii String Bool Lia.
Import ListNotations.

Local Open Scope string_scope.
Local Open Scope list_scope.
Local Open Scope Z_scope.

(** ** Host values *)

(** A JavaScript [Date]: a time value in milliseconds since the epoch, or the
    invalid date (time value [NaN]). *)
Inductive JSDate : Type :=
| TimeValue (t : Z)
| InvalidDate.

(** What [parseInt] returns: an integer, or [NaN]. *)
Inductive Num : Type :=
| Int (z : Z)
| NaN.

(** The completion of a call: a value, or an exception carrying
    [error.message]. *)
Inductive Completion (A : Type) : Type :=
| Normal (a : A)
| Throw (message : string).
Arguments Normal {A} a.
Arguments Throw {A} message.

(** The JavaScript host.  [clock] is what [new Date()] reads on line 161;
    [LocalTZA t isUTC] is the local time zone adjustment of ECMAScript;
    [RegExpCreate p] is [new RegExp(p)]: [None] when the constructor throws a
    [SyntaxError], otherwise the predicate [regex.test]. *)
Record Host : Type := {
  clock : Z;
  LocalTZA : Z -> bool -> Z;
  RegExpCreate : string -> option (string -> bool)
}.

(** ** The branch source *)

(** An entry of [repos.listBranches]; the action reads its [name] only. *)
Record Branch : Type := { name : string }.

(** The answers of the REST client.  [repos_get] is the [default_branch] of
    the repository; [repos_listBranches] is the sequence of pages the listing
    serves (page [p] is its [p]-th element, and every page after the last is
    the empty array); [repos_getBranch b] is the author date of the head
    commit of [b], already passed through [new Date]; [git_deleteRef r] is the
    outcome of deleting the reference [r].  An answer depends on the request
    only. *)
Record Octokit : Type := {
  repos_get : Completion string;
  repos_listBranches : list (Completion (list Branch));
  repos_getBranch : string -> Completion JSDate;
  git_deleteRef : string -> Completion unit
}.

(** ** The engine instance and what it does to the outside *)

(** An element of [this.skippedBranches]: [{ branch, reason }]. *)
Record SkippedBranch : Type := { branch : string; reason : string }.

(** The fields of a [BranchCleanup] instance that [run] uses. *)
Record BranchCleanup : Type := {
  daysOld : Num;
  dryRun : bool;
  protectedBranches : list string;
  excludePattern : string;
  deletedBranches : list string;
  skippedBranches : list SkippedBranch
}.

(** The argument of [JSON.stringify] in the two [core.setOutput] calls. *)
Inductive Json : Type :=
| JsonNames (l : list string)
| JsonSkipped (l : list SkippedBranch).

(** The calls that leave the engine, as they are issued. *)
Inductive Effect : Type :=
| ReposGet
| ReposListBranches (page : nat)
| ReposGetBranch (branchName : string)
| GitDeleteRef (ref : string)
| SetOutput (key : string) (value : Json)
| SetFailed (message : string).

Record State : Type := { this : BranchCleanup; effects : list Effect }.

(** ** A monad for state and exceptions

    A JavaScript exception leaves the mutations made before it in place, so
    the state is returned on both completions. *)
Definition M (A : Type) : Type := State -> Completion A * State.

Definition ret {A : Type} (a : A) : M A := fun st => (Normal a, st).

Definition throw {A : Type} (message : string) : M A :=
  fun st => (Throw message, st).

Definition bind {A B : Type} (m : M A) (k : A -> M B) : M B :=
  fun st =>
    match m st with
    | (Normal a, st') => k a st'
    | (Throw e, st') => (Throw e, st')
    end.

Definition tryCatch {A : Type} (body : M A) (handler : string -> M A) : M A :=
  fun st =>
    match body st with
    | (Normal a, st') => (Normal a, st')
    | (Throw e, st') => handler e st'
    end.

Declare Scope js_scope.
Delimit Scope js_scope with js.
Notation "x <- m ;; k" := (bind m (fun x => k))
  (at level 100, m at next level, right associativity) : js_scope.
Notation "m ;; k" := (bind m (fun _ => k))
  (at level 100, right associativity) : js_scope.
Local Open Scope js_scope.

Definition gets {A : Type} (f : BranchCleanup -> A) : M A :=
  fun st => (Normal (f (this st)), st).

Definition modify (f : BranchCleanup -> BranchCleanup) : M unit :=
  fun st => (Normal tt, {| this := f (this st); effects := effects st |}).

Definition perform (e : Effect) : M unit :=
  fun st => (Normal tt, {| this := this st; effects := (effects st ++ [e])%list |}).

(** [for (const x of l) body]. *)
Fixpoint forOf {A : Type} (l : list A) (body : A -> M unit) : M unit :=
  match l with
  | [] => ret tt
  | x :: rest => body x ;; forOf rest body
  end.

(** ** Array helpers *)

(** [array.includes(x)] on an array of strings. *)
Definition includes (l : list string) (x : string) : bool :=
  existsb (String.eqb x) l.

Definition push_protected (x : string) (o : BranchCleanup) : BranchCleanup :=
  {| daysOld := daysOld o; dryRun := dryRun o;
     protectedBranches := (protectedBranches o ++ [x])%list;
     excludePattern := excludePattern o;
     deletedBranches := deletedBranches o;
     skippedBranches := skippedBranches o |}.

Definition push_deleted (x : string) (o : BranchCleanup) : BranchCleanup :=
  {| daysOld := daysOld o; dryRun := dryRun o;
     protectedBranches := protectedBranches o;
     excludePattern := excludePattern o;
     deletedBranches := (deletedBranches o ++ [x])%list;
     skippedBranches := skippedBranches o |}.

Definition push_skipped (x : SkippedBranch) (o : BranchCleanup) : BranchCleanup :=
  {| daysOld := daysOld o; dryRun := dryRun o;
     protectedBranches := protectedBranches o;
     excludePattern := excludePattern o;
     deletedBranches := deletedBranches o;
     skippedBranches := (skippedBranches o ++ [x])%list |}.

(** ** Dates *)

Definition msPerDay : Z := 86400000.

Definition Day (t : Z) : Z := t / msPerDay.
Definition TimeWithinDay (t : Z) : Z := t mod msPerDay.
Definition MakeDate (day time : Z) : Z := day * msPerDay + time.

Definition TimeClip (t : Z) : JSDate :=
  if Z.abs t <=? 8640000000000000 then TimeValue t else InvalidDate.

(** [a < b] on two dates: the comparison of the time values, false as soon as
    one of them is [NaN]. *)
Definition date_lt (a b : JSDate) : bool :=
  match a, b with
  | TimeValue x, TimeValue y => x <? y
  | _, _ => false
  end.

(** [date.toISOString()] throws a [RangeError] on the invalid date; this is
    all that matters of [formatDate], whose string is only printed. *)
Definition formatDate (date : JSDate) : M unit :=
  match date with
  | TimeValue _ => ret tt
  | InvalidDate => throw "Invalid time value"
  end.

Section Action.

Variable octokit : Octokit.
Variable host : Host.

Definition LocalTime (t : Z) : Z := t + LocalTZA host t true.
Definition UTC (t : Z) : Z := t - LocalTZA host t false.

(** Lines 161-162: [const cutoffDate = new Date();
    cutoffDate.setDate(cutoffDate.getDate() - this.daysOld)].
    [setDate(dt)] moves the local time [t] to
    [MakeDate(MakeDay(YearFromTime(t), MonthFromTime(t), dt), TimeWithinDay(t))];
    [MakeDay(y, m, dt)] is the day number of the first of that month plus
    [dt - 1], so with [dt = DateFromTime(t) - n] it is [Day(t) - n]. *)
Definition cutoffDate (n : Num) : JSDate :=
  match n with
  | NaN => InvalidDate
  | Int n =>
      let t := LocalTime (clock host) in
      TimeClip (UTC (MakeDate (Day t - n) (TimeWithinDay t)))
  end.

(** ** The methods of [BranchCleanup] *)

Definition isProtected (branchName : string) : M bool :=
  protected <- gets protectedBranches ;;
  ret (includes protected branchName).

Definition matchesExcludePattern (branchName : string) : M bool :=
  pattern <- gets excludePattern ;;
  if String.eqb pattern "" then ret false
  else
    match RegExpCreate host pattern with
    | Some regex => ret (regex branchName)
    | None => ret false
    end.

Definition addSkippedBranch (branchName reason : string) : M unit :=
  modify (push_skipped {| branch := branchName; reason := reason |}).

Definition getDefaultBranch : M string :=
  perform ReposGet ;;
  match repos_get octokit with
  | Normal default_branch => ret default_branch
  | Throw e => throw ("Failed to get default branch: " ++ e)%string
  end.

Definition perPage : nat := 100.

(** The [while (true)] of [getAllBranches], entered at page [page] with the
    pages that are still to be served. *)
Fixpoint getAllBranches_loop (pages : list (Completion (list Branch)))
    (page : nat) (branches : list Branch) : M (list Branch) :=
  perform (ReposListBranches page) ;;
  match pages with
  | [] => ret branches
  | Throw e :: _ => throw e
  | Normal data :: rest =>
      if Nat.eqb (List.length data) 0 then ret branches
      else
        let branches := (branches ++ data)%list in
        if Nat.ltb (List.length data) perPage then ret branches
        else getAllBranches_loop rest (S page) branches
  end.

Definition getAllBranches : M (list Branch) :=
  tryCatch (getAllBranches_loop (repos_listBranches octokit) 1%nat [])
           (fun e => throw ("Failed to fetch branches: " ++ e)%string).

Definition getBranchLastCommitDate (branchName : string) : M JSDate :=
  perform (ReposGetBranch branchName) ;;
  match repos_getBranch octokit branchName with
  | Normal date => ret date
  | Throw e =>
      throw ("Failed to get last commit date for branch " ++ branchName
             ++ ": " ++ e)%string
  end.

Definition deleteBranch (branchName : string) : M bool :=
  let ref := ("heads/" ++ branchName)%string in
  perform (GitDeleteRef ref) ;;
  match git_deleteRef octokit ref with
  | Normal _ => ret true
  | Throw _ => ret false
  end.

(** Lines 179-232, the body of the loop of [run]. *)
Definition processBranch (cutoff : JSDate) (b : Branch) : M unit :=
  let branchName := name b in
  protected <- isProtected branchName ;;
  if protected then addSkippedBranch branchName "protected"
  else
    excluded <- matchesExcludePattern branchName ;;
    if excluded then addSkippedBranch branchName "matches_exclude_pattern"
    else
      tryCatch
        (lastCommitDate <- getBranchLastCommitDate branchName ;;
         formatDate lastCommitDate ;;
         if date_lt lastCommitDate cutoff then
           dry <- gets dryRun ;;
           if dry then modify (push_deleted branchName)
           else
             deleted <- deleteBranch branchName ;;
             if deleted then modify (push_deleted branchName)
             else addSkippedBranch branchName "deletion_failed"
         else addSkippedBranch branchName "too_recent")
        (fun _ => addSkippedBranch branchName "error_processing").

(** Line 167: [allBranches.filter(branch => branch.name !== defaultBranch)]. *)
Definition branchesToProcess (allBranches : list Branch)
    (defaultBranch : string) : list Branch :=
  filter (fun b => negb (String.eqb (name b) defaultBranch)) allBranches.

(** Lines 141-265, the [try] block of [run]. *)
Definition run_try : M unit :=
  defaultBranch <- getDefaultBranch ;;
  protected <- gets protectedBranches ;;
  (if includes protected defaultBranch then ret tt
   else modify (push_protected defaultBranch)) ;;
  n <- gets daysOld ;;
  let cutoff := cutoffDate n in
  formatDate cutoff ;;
  allBranches <- getAllBranches ;;
  let todo := branchesToProcess allBranches defaultBranch in
  if Nat.eqb (List.length todo) 0 then ret tt
  else
    forOf todo (processBranch cutoff) ;;
    deleted <- gets deletedBranches ;;
    perform (SetOutput "deleted-branches" (JsonNames deleted)) ;;
    skipped <- gets skippedBranches ;;
    perform (SetOutput "skipped-branches" (JsonSkipped skipped)).

Definition run : M unit :=
  tryCatch run_try
           (fun e => perform (SetFailed ("Branch cleanup failed: " ++ e)%string)).

End Action.

(** ** Construction and observation *)

(** The configuration part of the constructor (lines 7-10), after the inputs
    have been read. *)
Record Configuration : Type := {
  cfg_daysOld : Num;
  cfg_dryRun : bool;
  cfg_protectedBranches : list string;
  cfg_excludePattern : string
}.

(** [new BranchCleanup()]: both result arrays start empty (lines 15-16). *)
Definition constructor (c : Configuration) : BranchCleanup :=
  {| daysOld := cfg_daysOld c; dryRun := cfg_dryRun c;
     protectedBranches := cfg_protectedBranches c;
     excludePattern := cfg_excludePattern c;
     deletedBranches := []; skippedBranches := [] |}.

Definition start (c : Configuration) : State :=
  {| this := constructor c; effects := [] |}.

(** Lines 274-275: [new BranchCleanup().run()], and the state it ends in. *)
Definition main (octokit : Octokit) (host : Host) (c : Configuration) : State :=
  snd (run octokit host (start c)).

(** The method returns the value [a], whatever the state it is called in. *)
Definition returns {A : Type} (m : M A) (a : A) : Prop :=
  forall st, fst (m st) = Normal a.

Definition is_SetFailed (e : Effect) : bool :=
  match e with SetFailed _ => true | _ => false end.

Definition is_SetOutput (e : Effect) : bool :=
  match e with SetOutput _ _ => true | _ => false end.

(** The run ended in the [catch] of [run]: [core.setFailed] was called. *)
Definition aborted (st : State) : bool := existsb is_SetFailed (effects st).

(** ** What one pass of the loop amounts to

    The loop body reads three fields of the instance that nothing in [run]
    writes after the loop has started ([protectedBranches], [excludePattern],
    [dryRun]) and the fixed [cutoff].  [verdict] is the entry the body adds
    for a branch name and [requests] the calls it issues; both are shown below
    to be what [processBranch] does. *)

Inductive Outcome : Type :=
| Deleted
| Skipped (why : string).

Section Decision.

Variable octokit : Octokit.
Variable host : Host.
Variable protected : list string.
Variable pattern : string.
Variable dry : bool.
Variable cutoff : JSDate.

Definition excluded (b : string) : bool :=
  if String.eqb pattern "" then false
  else
    match RegExpCreate host pattern with
    | Some regex => regex b
    | None => false
    end.

Definition verdict (b : string) : Outcome :=
  if includes protected b then Skipped "protected"
  else if excluded b then Skipped "matches_exclude_pattern"
  else
    match repos_getBranch octokit b with
    | Throw _ => Skipped "error_processing"
    | Normal InvalidDate => Skipped "error_processing"
    | Normal (TimeValue t) =>
        if date_lt (TimeValue t) cutoff then
          if dry then Deleted
          else
            match git_deleteRef octokit ("heads/" ++ b)%string with
            | Normal _ => Deleted
            | Throw _ => Skipped "deletion_failed"
            end
        else Skipped "too_recent"
    end.

Definition requests (b : string) : list Effect :=
  if includes protected b then []
  else if excluded b then []
  else
    ReposGetBranch b ::
    match repos_getBranch octokit b with
    | Normal (TimeValue t) =>
        if date_lt (TimeValue t) cutoff then
          if dry then [] else [GitDeleteRef ("heads/" ++ b)%string]
        else []
    | _ => []
    end.

Definition deletedOf (l : list Branch) : list string :=
  flat_map (fun b => match verdict (name b) with
                     | Deleted => [name b]
                     | Skipped _ => []
                     end) l.

Definition skippedOf (l : list Branch) : list SkippedBranch :=
  flat_map (fun b => match verdict (name b) with
                     | Deleted => []
                     | Skipped why => [{| branch := name b; reason := why |}]
                     end) l.

Definition requestsOf (l : list Branch) : list Effect :=
  flat_map (fun b => requests (name b)) l.

End Decision.

(** The entry a pass of the loop adds to the instance. *)
Definition record_outcome (b : string) (out : Outcome) (o : BranchCleanup)
    : BranchCleanup :=
  match out with
  | Deleted => push_deleted b o
  | Skipped why => push_skipped {| branch := b; reason := why |} o
  end.

(** [this.protectedBranches] once lines 156-158 have run. *)
Definition withDefault (protected : list string) (defaultBranch : string)
    : list string :=
  if includes protected defaultBranch then protected
  else (protected ++ [defaultBranch])%list.

Definition is_listing (e : Effect) : bool :=
  match e with ReposListBranches _ => true | _ => false end.

(** The state a run ends in when the default branch is [d], the cutoff is the
    valid date [c], the listing is [all] and was obtained by the calls [es]. *)
Definition completed (octokit : Octokit) (host : Host) (cfg : Configuration)
    (d : string) (c : Z) (all : list Branch) (es : list Effect) : State :=
  let todo := branchesToProcess all d in
  let protected := withDefault (cfg_protectedBranches cfg) d in
  let pattern := cfg_excludePattern cfg in
  let dry := cfg_dryRun cfg in
  let deleted :=
    deletedOf octokit host protected pattern dry (TimeValue c) todo in
  let skipped :=
    skippedOf octokit host protected pattern dry (TimeValue c) todo in
  let calls :=
    requestsOf octokit host protected pattern dry (TimeValue c) todo in
  {| this :=
       {| daysOld := cfg_daysOld cfg; dryRun := dry;
          protectedBranches := protected; excludePattern := pattern;
          deletedBranches := deleted; skippedBranches := skipped |};
     effects :=
       if Nat.eqb (List.length todo) 0 then ReposGet :: es
       else (ReposGet :: es ++ calls
             ++ [SetOutput "deleted-branches" (JsonNames deleted);
                 SetOutput "skipped-branches" (JsonSkipped skipped)])%list |}.

(** [getAllBranches] completes with [r] after issuing the calls [es]. *)
Definition lists (octokit : Octokit) (r : Completion (list Branch))
    (es : list Effect) : Prop :=
  forall st : State,
    getAllBranches octokit st =
      (r, {| this := this st; effects := (effects st ++ es)%list |}).

(** The instance as it is between line 158 and the loop. *)
Definition configured (cfg : Configuration) (protected : list string)
    : BranchCleanup :=
  {| daysOld := cfg_daysOld cfg; dryRun := cfg_dryRun cfg;
     protectedBranches := protected;
     excludePattern := cfg_excludePattern cfg;
     deletedBranches := []; skippedBranches := [] |}.

(** The calls of the loop body: the fetch of a commit date and the deletion
    of a reference. *)
Definition is_branch_call (e : Effect) : bool :=
  match e with
  | ReposGetBranch _ | GitDeleteRef _ => true
  | _ => false
  end.

Definition is_GitDeleteRef (e : Effect) : bool :=
  match e with GitDeleteRef _ => true | _ => false end.

(** The same configuration with another [dry-run] input, or another
    [exclude-pattern] input. *)
Definition withDryRun (cfg : Configuration) (dry : bool) : Configuration :=
  {| cfg_daysOld := cfg_daysOld cfg; cfg_dryRun := dry;
     cfg_protectedBranches := cfg_protectedBranches cfg;
     cfg_excludePattern := cfg_excludePattern cfg |}.

Definition withPattern (cfg : Configuration) (pattern : string)
    : Configuration :=
  {| cfg_daysOld := cfg_daysOld cfg; cfg_dryRun := cfg_dryRun cfg;
     cfg_protectedBranches := cfg_protectedBranches cfg;
     cfg_excludePattern := pattern |}.

(** The instance the loop leaves when it is run on [l] alone, from an
    instance that has recorded nothing. *)
Definition alone (octokit : Octokit) (host : Host) (cfg : Configuration)
    (d : string) (c : Z) (l : list Branch) : BranchCleanup :=
  this (snd (forOf l (processBranch octokit host (TimeValue c))
               {| this := configured cfg
                            (withDefault (cfg_protectedBranches cfg) d);
                  effects := [] |})).

(** ** A repository to run the action on

    [main] is the default branch; the ages are relative to the clock of
    [utcHost], 2025-11-03T10:30:00Z. *)

Definition day (n : Z) : Z := n * msPerDay.

Definition demoClock : Z := 1762165800000.

(** A stand-in for [RegExp] that is right on the patterns used below: [(] does
    not compile, [^] followed by literal characters tests for a prefix, and
    literal characters alone test for a substring. *)
Definition literalRegExp (p : string) : option (string -> bool) :=
  if String.eqb p "(" then None
  else
    match p with
    | String "^"%char lit => Some (String.prefix lit)
    | _ => Some (fun s => match String.index 0 p s with
                          | Some _ => true
                          | None => false
                          end)
    end.

Definition utcHost : Host :=
  {| clock := demoClock;
     LocalTZA := fun _ _ => 0;
     RegExpCreate := literalRegExp |}.

Definition demoBranches : list Branch :=
  [ {| name := "main" |}; {| name := "feature/a" |};
    {| name := "release/1.0" |}; {| name := "develop" |};
    {| name := "gone" |}; {| name := "locked" |};
    {| name := "feature/b" |} ].

Definition demoRepo : Octokit :=
  {| repos_get := Normal "main";
     repos_listBranches := [Normal demoBranches];
     repos_getBranch := fun b =>
       if String.eqb b "feature/a" then Normal (TimeValue (demoClock - day 20))
       else if String.eqb b "release/1.0" then Normal (TimeValue (demoClock - day 5))
       else if String.eqb b "locked" then Normal (TimeValue (demoClock - day 15))
       else if String.eqb b "feature/b" then Normal (TimeValue (demoClock - day 13))
       else if String.eqb b "develop" then Normal (TimeValue (demoClock - day 400))
       else if String.eqb b "main" then Normal (TimeValue (demoClock - day 1))
       else Throw "Not Found";
     git_deleteRef := fun r =>
       if String.eqb r "heads/locked" then Throw "Reference update failed"
       else Normal tt |}.

(** The same repository with nothing in the way of deletions. *)
Definition openRepo : Octokit :=
  {| repos_get := repos_get demoRepo;
     repos_listBranches := repos_listBranches demoRepo;
     repos_getBranch := repos_getBranch demoRepo;
     git_deleteRef := fun _ => Normal tt |}.

(** A repository that has its default branch only. *)
Definition bareRepo : Octokit :=
  {| repos_get := Normal "main";
     repos_listBranches := [Normal [ {| name := "main" |} ]];
     repos_getBranch := fun _ => Normal (TimeValue (demoClock - day 1));
     git_deleteRef := fun _ => Normal tt |}.

(** The scenario of the specification: [main] (default), [feature/a] 20 days
    old and [release/1.0] 5 days old, with [main] the only protected name. *)
Definition scenarioRepo : Octokit :=
  {| repos_get := Normal "main";
     repos_listBranches :=
       [Normal [ {| name := "main" |}; {| name := "feature/a" |};
                 {| name := "release/1.0" |} ]];
     repos_getBranch := fun b =>
       if String.eqb b "feature/a" then Normal (TimeValue (demoClock - day 20))
       else if String.eqb b "release/1.0" then Normal (TimeValue (demoClock - day 5))
       else Normal (TimeValue demoClock);
     git_deleteRef := fun _ => Normal tt |}.

Definition scenarioConfig (dry : bool) : Configuration :=
  {| cfg_daysOld := Int 14; cfg_dryRun := dry;
     cfg_protectedBranches := ["main"]; cfg_excludePattern := "" |}.

Definition demoConfig (dry : bool) (pattern : string) : Configuration :=
  {| cfg_daysOld := Int 14; cfg_dryRun := dry;
     cfg_protectedBranches := ["master"; "develop"];
     cfg_excludePattern := pattern |}.

(** ** The inputs read by the constructor (lines 9 and 19-21)

    For the string methods below a string is read as a sequence of code
    units below 256.  Of the white space and line terminators that
    [String.prototype.trim] strips, seven are in that range: tab, line feed,
    vertical tab, form feed, carriage return, space and no-break space. *)

Definition isWhiteSpace (c : ascii) : bool :=
  let n := nat_of_ascii c in
  (Nat.eqb n 9 || Nat.eqb n 10 || Nat.eqb n 11 || Nat.eqb n 12
   || Nat.eqb n 13 || Nat.eqb n 32 || Nat.eqb n 160)%bool.

(** [s.split(sep)] for a separator of one character: the empty string splits
    into one empty piece. *)
Fixpoint split (sep : ascii) (s : string) : list string :=
  match s with
  | EmptyString => [EmptyString]
  | String c rest =>
      if Ascii.eqb c sep then EmptyString :: split sep rest
      else
        match split sep rest with
        | [] => [String c EmptyString]
        | piece :: pieces => String c piece :: pieces
        end
  end.

Fixpoint trimStart (s : string) : string :=
  match s with
  | EmptyString => EmptyString
  | String c rest => if isWhiteSpace c then trimStart rest else s
  end.

Fixpoint trimEnd (s : string) : string :=
  match s with
  | EmptyString => EmptyString
  | String c rest =>
      match trimEnd rest with
      | EmptyString => if isWhiteSpace c then EmptyString else String c EmptyString
      | kept => String c kept
      end
  end.

(** [s.trim()]. *)
Definition trim (s : string) : string := trimEnd (trimStart s).

(** Lines 19-21:
    [input.split(',').map(branch => branch.trim()).filter(Boolean)];
    [Boolean] of a string is false for the empty string only. *)
Definition parseProtectedBranches (input : string) : list string :=
  filter (fun b => negb (String.eqb b "")) (map trim (split "," input)).

(** Line 9: the [protected-branches] input, or the default when it is empty. *)
Definition protectedBranchesInput (input : string) : list string :=
  parseProtectedBranches
    (if String.eqb input "" then "main,master,develop,staging,production"
     else input).

(** [s.includes(',')]. *)
Definition hasComma (s : string) : bool :=
  existsb (Ascii.eqb ",") (list_ascii_of_string s).

(** A name that survives [parseProtectedBranches] as it is: not empty, free
    of commas, and with [name.trim() === name]. *)
Definition cleanName (s : string) : bool :=
  (negb (String.eqb s "") && negb (hasComma s) && String.eqb (trim s) s)%bool.


(** ** The age that is printed (lines 129-133)

    [Math.ceil(Math.abs(now - date) / (1000 * 60 * 60 * 24))], where [now] is
    the clock at the time of the call.  The quotient of the two doubles has
    the ceiling of the exact quotient as long as the difference is at most
    [2^53] milliseconds; [NaN] for the invalid date. *)
Definition getDaysAgo (now : Z) (date : JSDate) : Num :=
  match date with
  | TimeValue t => Int (- ((- Z.abs (now - t)) / msPerDay))
  | InvalidDate => NaN
  end.

(** ** More observations on runs *)

Definition is_ReposGetBranch (e : Effect) : bool :=
  match e with ReposGetBranch _ => true | _ => false end.

(** The same configuration with another [days-old] input. *)
Definition withDaysOld (cfg : Configuration) (n : Num) : Configuration :=
  {| cfg_daysOld := n; cfg_dryRun := cfg_dryRun cfg;
     cfg_protectedBranches := cfg_protectedBranches cfg;
     cfg_excludePattern := cfg_excludePattern cfg |}.

(** The five reasons a skipped entry can carry. *)
Definition reasonCodes : list string :=
  ["protected"; "matches_exclude_pattern"; "too_recent"; "deletion_failed";
   "error_processing"].

(** A page that makes [getAllBranches] ask for the next one. *)
Definition fullPage (data : list Branch) : bool :=
  negb (Nat.ltb (List.length data) perPage).

(** A repository with 100 branches [b1] ... [b100] on its first page and its
    default branch on the second. *)
Definition numbered (n : nat) : Branch :=
  {| name := String "b" (String (ascii_of_nat (48 + n / 100))
               (String (ascii_of_nat (48 + (n / 10) mod 10))
                  (String (ascii_of_nat (48 + n mod 10)) EmptyString))) |}.

Definition twoPageRepo : Octokit :=
  {| repos_get := Normal "main";
     repos_listBranches :=
       [Normal (map numbered (seq 1 100)); Normal [ {| name := "main" |} ]];
     repos_getBranch := fun _ => Normal (TimeValue (demoClock - day 1));
     git_deleteRef := fun _ => Normal tt |}.

(** A repository whose second page cannot be read. *)
Definition brokenListingRepo : Octokit :=
  {| repos_get := Normal "main";
     repos_listBranches :=
       [Normal (map numbered (seq 1 100)); Throw "Bad gateway"];
     repos_getBranch := fun _ => Normal (TimeValue (demoClock - day 100));
     git_deleteRef := fun _ => Normal tt |}.

(** A repository where one branch has a commit date that does not parse. *)
Definition oddDateRepo : Octokit :=
  {| repos_get := Normal "main";
     repos_listBranches :=
       [Normal [ {| name := "main" |}; {| name := "odd" |};
                 {| name := "old" |} ]];
     repos_getBranch := fun b =>
       if String.eqb b "odd" then Normal InvalidDate
       else Normal (TimeValue (demoClock - day 30));
     git_deleteRef := fun _ => Normal tt |}.

(** In a list of calls, every deletion of a reference comes right after the
    fetch of the commit date of the same branch. *)
Definition deletions_follow_fetches (calls : list Effect) : Prop :=
  forall before ref after,
    calls = (before ++ GitDeleteRef ref :: after)%list ->
    exists earlier b,
      ref = ("heads/" ++ b)%string /\
      before = (earlier ++ [ReposGetBranch b])%list.

(** ** Tactics *)

(** Unfolding the monad, and the methods down to the monad. *)
Ltac unfold_monad :=
  unfold formatDate, getDefaultBranch, tryCatch, bind, gets, modify, perform,
    ret, throw in *.

Ltac unfold_js :=
  unfold processBranch, isProtected, matchesExcludePattern, addSkippedBranch,
    getBranchLastCommitDate, deleteBranch in *;
  unfold_monad.

(** Membership, and its negation, in a list of closed terms. *)
Ltac pick_member := vm_compute; repeat (first [left; reflexivity | right]).
Ltac no_member :=
  let K := fresh "K" in
  vm_compute; intros K;
  repeat (destruct K as [K|K]; [discriminate K|]); exact K.

#[local] Arguments date_lt : simpl never.

(** * Properties *)

(** ** The examples of the specification *)

Example scenario_of_the_specification :
  forall dry : bool,
    let final := this (main scenarioRepo utcHost (scenarioConfig dry)) in
    deletedBranches final = ["feature/a"] /\
    skippedBranches final =
      [ {| branch := "release/1.0"; reason := "too_recent" |} ].
Proof. intros [|]; vm_compute; split; reflexivity. Qed.

Example scenario_live :
  let final := this (main demoRepo utcHost (demoConfig false "")) in
  deletedBranches final = ["feature/a"] /\
  skippedBranches final =
    [ {| branch := "release/1.0"; reason := "too_recent" |};
      {| branch := "develop"; reason := "protected" |};
      {| branch := "gone"; reason := "error_processing" |};
      {| branch := "locked"; reason := "deletion_failed" |};
      {| branch := "feature/b"; reason := "too_recent" |} ].
Proof. vm_compute. split; reflexivity. Qed.

Example scenario_effects :
  effects (main demoRepo utcHost (demoConfig true "^release/")) =
    [ ReposGet; ReposListBranches 1; ReposGetBranch "feature/a";
      ReposGetBranch "gone"; ReposGetBranch "locked";
      ReposGetBranch "feature/b";
      SetOutput "deleted-branches" (JsonNames ["feature/a"; "locked"]);
      SetOutput "skipped-branches" (JsonSkipped
        [ {| branch := "release/1.0"; reason := "matches_exclude_pattern" |};
          {| branch := "develop"; reason := "protected" |};
          {| branch := "gone"; reason := "error_processing" |};
          {| branch := "feature/b"; reason := "too_recent" |} ]) ].
Proof. vm_compute. reflexivity. Qed.

(** ** The loop body and the loop *)

Lemma processBranch_eq (octokit : Octokit) (host : Host) (cutoff : JSDate)
    (br : Branch) (st : State) :
  processBranch octokit host cutoff br st =
    (Normal tt,
     {| this :=
          record_outcome (name br)
            (verdict octokit host (protectedBranches (this st))
               (excludePattern (this st)) (dryRun (this st)) cutoff (name br))
            (this st);
        effects :=
          (effects st
           ++ requests octokit host (protectedBranches (this st))
                (excludePattern (this st)) (dryRun (this st)) cutoff
                (name br))%list |}).
Proof.
  destruct st as [o es], br as [b].
  unfold verdict, requests, excluded. unfold_js. simpl.
  destruct (includes (protectedBranches o) b); simpl.
  { now rewrite app_nil_r. }
  destruct (String.eqb (excludePattern o) ""); simpl.
  - destruct (repos_getBranch octokit b) as [[t|]|e]; simpl; try reflexivity.
    destruct (date_lt (TimeValue t) cutoff); simpl; try reflexivity.
    destruct (dryRun o); simpl; try reflexivity.
    destruct (git_deleteRef octokit _); simpl; rewrite <- app_assoc; reflexivity.
  - destruct (RegExpCreate host (excludePattern o)) as [regex|]; simpl.
    + destruct (regex b); simpl.
      { now rewrite app_nil_r. }
      destruct (repos_getBranch octokit b) as [[t|]|e]; simpl; try reflexivity.
      destruct (date_lt (TimeValue t) cutoff); simpl; try reflexivity.
      destruct (dryRun o); simpl; try reflexivity.
      destruct (git_deleteRef octokit _); simpl; rewrite <- app_assoc; reflexivity.
    + destruct (repos_getBranch octokit b) as [[t|]|e]; simpl; try reflexivity.
      destruct (date_lt (TimeValue t) cutoff); simpl; try reflexivity.
      destruct (dryRun o); simpl; try reflexivity.
      destruct (git_deleteRef octokit _); simpl; rewrite <- app_assoc; reflexivity.
Qed.

Lemma record_outcome_config (b : string) (out : Outcome) (o : BranchCleanup) :
  daysOld (record_outcome b out o) = daysOld o /\
  dryRun (record_outcome b out o) = dryRun o /\
  protectedBranches (record_outcome b out o) = protectedBranches o /\
  excludePattern (record_outcome b out o) = excludePattern o.
Proof. destruct out; simpl; auto. Qed.

Lemma forOf_processBranch_eq (octokit : Octokit) (host : Host)
    (cutoff : JSDate) (l : list Branch) :
  forall st : State,
    forOf l (processBranch octokit host cutoff) st =
      (Normal tt,
       {| this :=
            {| daysOld := daysOld (this st); dryRun := dryRun (this st);
               protectedBranches := protectedBranches (this st);
               excludePattern := excludePattern (this st);
               deletedBranches :=
                 (deletedBranches (this st)
                  ++ deletedOf octokit host (protectedBranches (this st))
                       (excludePattern (this st)) (dryRun (this st)) cutoff l)%list;
               skippedBranches :=
                 (skippedBranches (this st)
                  ++ skippedOf octokit host (protectedBranches (this st))
                       (excludePattern (this st)) (dryRun (this st)) cutoff l)%list |};
          effects :=
            (effects st
             ++ requestsOf octokit host (protectedBranches (this st))
                  (excludePattern (this st)) (dryRun (this st)) cutoff l)%list |}).
Proof.
  induction l as [|b l IH]; intros [o es].
  - destruct o; simpl. unfold ret. now rewrite !app_nil_r.
  - simpl forOf. unfold bind at 1. rewrite processBranch_eq. rewrite IH.
    simpl this. simpl effects.
    destruct (record_outcome_config (name b)
                (verdict octokit host (protectedBranches o) (excludePattern o)
                   (dryRun o) cutoff (name b)) o) as (-> & -> & -> & ->).
    unfold deletedOf, skippedOf, requestsOf. simpl flat_map.
    rewrite <- !app_assoc.
    destruct (verdict octokit host (protectedBranches o) (excludePattern o)
                (dryRun o) cutoff (name b)); simpl;
      rewrite <- ?app_assoc; reflexivity.
Qed.

(** ** The listing *)

(** [getAllBranches] leaves the instance alone, only issues listing calls, and
    its completion does not depend on the state it is called in. *)
Lemma getAllBranches_loop_frame (pages : list (Completion (list Branch))) :
  forall (page : nat) (branches : list Branch),
  exists (r : Completion (list Branch)) (es : list Effect),
    forallb is_listing es = true /\
    forall st : State,
      getAllBranches_loop pages page branches st =
        (r, {| this := this st; effects := (effects st ++ es)%list |}).
Proof.
  induction pages as [|[data|e] rest IH]; intros page branches.
  - exists (Normal branches), [ReposListBranches page]. split; [reflexivity|].
    intros st. reflexivity.
  - cbn [getAllBranches_loop].
    destruct (Nat.eqb (List.length data) 0).
    { exists (Normal branches), [ReposListBranches page].
      split; [reflexivity|]. intros st. reflexivity. }
    destruct (Nat.ltb (List.length data) perPage).
    { exists (Normal (branches ++ data)%list), [ReposListBranches page].
      split; [reflexivity|]. intros st. reflexivity. }
    destruct (IH (S page) (branches ++ data)%list) as (r & es & Hes & Hrun).
    exists r, (ReposListBranches page :: es). split; [exact Hes|].
    intros st. unfold bind, perform. rewrite Hrun. simpl.
    now rewrite <- app_assoc.
  - exists (Throw e), [ReposListBranches page]. split; [reflexivity|].
    intros st. reflexivity.
Qed.

Lemma getAllBranches_frame (octokit : Octokit) :
  exists (r : Completion (list Branch)) (es : list Effect),
    forallb is_listing es = true /\ lists octokit r es.
Proof.
  destruct (getAllBranches_loop_frame (repos_listBranches octokit) 1%nat [])
    as (r & es & Hes & Hrun).
  destruct r as [all|e].
  - exists (Normal all), es. split; [exact Hes|]. intros st.
    unfold getAllBranches, tryCatch. now rewrite Hrun.
  - exists (Throw ("Failed to fetch branches: " ++ e)%string), es.
    split; [exact Hes|]. intros st.
    unfold getAllBranches, tryCatch. now rewrite Hrun.
Qed.

Lemma lists_unique (octokit : Octokit) (r r' : Completion (list Branch))
    (es es' : list Effect) :
  lists octokit r es -> lists octokit r' es' -> r = r' /\ es = es'.
Proof.
  intros H H'.
  pose proof (H {| this := configured (Build_Configuration NaN false [] "") [];
                   effects := [] |}) as E.
  rewrite H' in E. simpl in E. inversion E. split; reflexivity.
Qed.

Lemma returns_lists (octokit : Octokit) (all : list Branch)
    (r : Completion (list Branch)) (es : list Effect) :
  returns (getAllBranches octokit) all -> lists octokit r es -> r = Normal all.
Proof.
  intros Hret H.
  specialize (Hret {| this := configured (Build_Configuration NaN false [] "") [];
                      effects := [] |}).
  rewrite H in Hret. exact Hret.
Qed.

(** ** The four ways a run can go *)

Lemma main_cases (octokit : Octokit) (host : Host) (cfg : Configuration) :
  (exists e,
     repos_get octokit = Throw e /\
     this (main octokit host cfg) = constructor cfg /\
     effects (main octokit host cfg) =
       [ReposGet;
        SetFailed ("Branch cleanup failed: Failed to get default branch: "
                   ++ e)%string])
  \/
  (exists d,
     repos_get octokit = Normal d /\
     cutoffDate host (cfg_daysOld cfg) = InvalidDate /\
     this (main octokit host cfg) =
       configured cfg (withDefault (cfg_protectedBranches cfg) d) /\
     effects (main octokit host cfg) =
       [ReposGet; SetFailed "Branch cleanup failed: Invalid time value"])
  \/
  (exists d c e es,
     repos_get octokit = Normal d /\
     cutoffDate host (cfg_daysOld cfg) = TimeValue c /\
     lists octokit (Throw e) es /\
     forallb is_listing es = true /\
     this (main octokit host cfg) =
       configured cfg (withDefault (cfg_protectedBranches cfg) d) /\
     effects (main octokit host cfg) =
       (ReposGet :: es ++ [SetFailed ("Branch cleanup failed: " ++ e)%string])%list)
  \/
  (exists d c all es,
     repos_get octokit = Normal d /\
     cutoffDate host (cfg_daysOld cfg) = TimeValue c /\
     lists octokit (Normal all) es /\
     forallb is_listing es = true /\
     main octokit host cfg = completed octokit host cfg d c all es).
Proof.
  unfold main, run, run_try, start.
  destruct (repos_get octokit) as [d|e] eqn:Hd.
  2:{ left. exists e. split; [reflexivity|].
      unfold_monad. rewrite Hd. simpl. split; reflexivity. }
  right.
  destruct (cutoffDate host (cfg_daysOld cfg)) as [c|] eqn:Hc.
  2:{ left. exists d. split; [reflexivity|]. split; [reflexivity|].
      unfold_monad. rewrite Hd. simpl. unfold withDefault, configured.
      destruct (includes (cfg_protectedBranches cfg) d); simpl;
        rewrite Hc; simpl; (split; reflexivity). }
  right.
  destruct (getAllBranches_frame octokit) as (r & es & Hes & Hrun).
  destruct r as [all|e].
  - right. exists d, c, all, es. repeat split; try assumption.
    unfold lists in Hrun.
    unfold_monad. rewrite Hd. simpl. unfold completed, withDefault.
    destruct (includes (cfg_protectedBranches cfg) d); simpl;
      rewrite Hc; simpl; rewrite Hrun; simpl;
      (destruct (Nat.eqb (List.length (branchesToProcess all d)) 0) eqn:Hlen;
       [ apply Nat.eqb_eq, length_zero_iff_nil in Hlen; rewrite Hlen;
         reflexivity | ]);
      rewrite forOf_processBranch_eq; simpl; rewrite <- ?app_assoc;
      reflexivity.
  - left. exists d, c, e, es. repeat split; try assumption; unfold lists in Hrun.
    + unfold_monad. rewrite Hd. simpl. unfold withDefault, configured.
      destruct (includes (cfg_protectedBranches cfg) d); simpl;
        rewrite Hc; simpl; rewrite Hrun; reflexivity.
    + unfold_monad. rewrite Hd. simpl.
      destruct (includes (cfg_protectedBranches cfg) d); simpl;
        rewrite Hc; simpl; rewrite Hrun; simpl; reflexivity.
Qed.

(** ** Reading the result lists and the calls of a completed run *)

Section Reading.

Variable octokit : Octokit.
Variable host : Host.
Variable protected : list string.
Variable pattern : string.
Variable dry : bool.
Variable cutoff : JSDate.

Lemma In_deletedOf (l : list Branch) (x : string) :
  In x (deletedOf octokit host protected pattern dry cutoff l) <->
  In x (map name l) /\ verdict octokit host protected pattern dry cutoff x = Deleted.
Proof.
  unfold deletedOf. rewrite in_flat_map, in_map_iff. split.
  - intros (b & Hb & Hx).
    destruct (verdict _ _ _ _ _ _ (name b)) eqn:E; simpl in Hx;
      [destruct Hx as [<-|[]]|contradiction].
    split; [exists b; auto | exact E].
  - intros ((b & <- & Hb) & E). exists b. split; [exact Hb|].
    rewrite E. now left.
Qed.

Lemma In_skippedOf (l : list Branch) (s : SkippedBranch) :
  In s (skippedOf octokit host protected pattern dry cutoff l) <->
  In (branch s) (map name l) /\ verdict octokit host protected pattern dry cutoff (branch s)
  = Skipped (reason s).
Proof.
  unfold skippedOf. rewrite in_flat_map, in_map_iff. split.
  - intros (b & Hb & Hs).
    destruct (verdict _ _ _ _ _ _ (name b)) eqn:E; simpl in Hs;
      [contradiction|destruct Hs as [<-|[]]].
    simpl. split; [exists b; auto | exact E].
  - intros ((b & Hn & Hb) & E). exists b. split; [exact Hb|].
    rewrite Hn, E. left. now destruct s; simpl in *; subst.
Qed.

Lemma In_requestsOf (l : list Branch) (e : Effect) :
  In e (requestsOf octokit host protected pattern dry cutoff l) <->
  exists x, In x (map name l) /\
            In e (requests octokit host protected pattern dry cutoff x).
Proof.
  unfold requestsOf. rewrite in_flat_map. split.
  - intros (b & Hb & He). exists (name b). split; [now apply in_map|exact He].
  - intros (x & Hx & He). apply in_map_iff in Hx as (b & <- & Hb). now exists b.
Qed.

(** The only calls a pass makes are the fetch of the branch and the deletion
    of its reference. *)
Lemma In_requests (x : string) (e : Effect) :
  In e (requests octokit host protected pattern dry cutoff x) <->
  includes protected x = false /\ excluded host pattern x = false /\
  (e = ReposGetBranch x \/
   (e = GitDeleteRef ("heads/" ++ x)%string /\ dry = false /\
    exists t, repos_getBranch octokit x = Normal (TimeValue t) /\
              date_lt (TimeValue t) cutoff = true)).
Proof.
  unfold requests.
  destruct (includes protected x); [split; [intros []|intros (H & _); discriminate]|].
  destruct (excluded host pattern x);
    [split; [intros []|intros (_ & H & _); discriminate]|].
  simpl. split.
  - intros [<-|H]; [auto|]. repeat split.
    destruct (repos_getBranch octokit x) as [[t|]|]; try contradiction.
    destruct (date_lt (TimeValue t) cutoff) eqn:Hlt; try contradiction.
    destruct dry; [contradiction|]. destruct H as [<-|[]].
    right. repeat split. now exists t.
  - intros (_ & _ & [->|(-> & -> & t & -> & ->)]); [now left|right; now left].
Qed.

Lemma count_occ_lists (l : list Branch) (x : string) :
  count_occ string_dec
    (deletedOf octokit host protected pattern dry cutoff l
     ++ map branch (skippedOf octokit host protected pattern dry cutoff l)) x
  = count_occ string_dec (map name l) x.
Proof.
  rewrite count_occ_app. induction l as [|b l IH]; [reflexivity|].
  unfold deletedOf, skippedOf in *. simpl flat_map. simpl map.
  rewrite map_app, !count_occ_app.
  destruct (verdict _ _ _ _ _ _ (name b)); simpl;
    destruct (string_dec (name b) x); lia.
Qed.

End Reading.

Lemma listing_calls (es : list Effect) (e : Effect) :
  forallb is_listing es = true -> In e es -> exists p, e = ReposListBranches p.
Proof.
  intros H He. rewrite forallb_forall in H. specialize (H e He).
  destruct e; try discriminate. now eexists.
Qed.

Lemma In_effects_completed (octokit : Octokit) (host : Host)
    (cfg : Configuration) (d : string) (c : Z) (all : list Branch)
    (es : list Effect) (e : Effect) :
  forallb is_listing es = true ->
  In e (effects (completed octokit host cfg d c all es)) ->
  e = ReposGet \/ (exists p, e = ReposListBranches p) \/
  (exists x, In x (map name (branchesToProcess all d)) /\
             In e (requests octokit host
                     (withDefault (cfg_protectedBranches cfg) d)
                     (cfg_excludePattern cfg) (cfg_dryRun cfg) (TimeValue c) x))
  \/ (branchesToProcess all d <> [] /\
      (e = SetOutput "deleted-branches"
             (JsonNames (deletedBranches
                (this (completed octokit host cfg d c all es)))) \/
       e = SetOutput "skipped-branches"
             (JsonSkipped (skippedBranches
                (this (completed octokit host cfg d c all es)))))).
Proof.
  intros Hes. unfold completed. cbn [effects this deletedBranches skippedBranches].
  destruct (Nat.eqb (List.length (branchesToProcess all d)) 0) eqn:Hlen.
  - intros [<-|He]; [now left|]. right; left. eapply listing_calls; eauto.
  - intros [<-|He]; [now left|]. right.
    rewrite !in_app_iff in He. destruct He as [He|[He|He]].
    + left. eapply listing_calls; eauto.
    + right; left. now apply In_requestsOf in He.
    + right; right. split.
      { intros E. rewrite E in Hlen. discriminate. }
      simpl in He. intuition.
Qed.

Lemma aborted_completed (octokit : Octokit) (host : Host)
    (cfg : Configuration) (d : string) (c : Z) (all : list Branch)
    (es : list Effect) :
  forallb is_listing es = true ->
  aborted (completed octokit host cfg d c all es) = false.
Proof.
  intros Hes. unfold aborted.
  destruct (existsb _ _) eqn:E; [|reflexivity].
  apply existsb_exists in E as (e & He & Hf).
  apply In_effects_completed in He; [|exact Hes].
  destruct He as [->|[(p & ->)|[(x & _ & Hx)|(_ & [->| ->])]]]; try discriminate.
  apply In_requests in Hx as (_ & _ & [->|(-> & _)]); discriminate.
Qed.

(** A run that did not abort went all the way. *)
Lemma main_not_aborted (octokit : Octokit) (host : Host) (cfg : Configuration) :
  aborted (main octokit host cfg) = false ->
  exists d c all es,
    repos_get octokit = Normal d /\
    cutoffDate host (cfg_daysOld cfg) = TimeValue c /\
    lists octokit (Normal all) es /\
    forallb is_listing es = true /\
    main octokit host cfg = completed octokit host cfg d c all es.
Proof.
  intros Hab. unfold aborted in Hab.
  destruct (main_cases octokit host cfg)
    as [(e & _ & _ & E)|[(d & _ & _ & _ & E)
       |[(d & c & e & es & _ & _ & _ & _ & _ & E)|H]]];
    [rewrite E in Hab; discriminate | rewrite E in Hab; discriminate | | exact H].
  rewrite E in Hab. simpl in Hab. rewrite existsb_app in Hab. simpl in Hab.
  rewrite orb_true_r in Hab. discriminate.
Qed.

(** The converse: with a default branch, a valid cutoff and a listing, the run
    completes. *)
Lemma main_completed (octokit : Octokit) (host : Host) (cfg : Configuration)
    (d : string) (c : Z) (all : list Branch) :
  repos_get octokit = Normal d ->
  cutoffDate host (cfg_daysOld cfg) = TimeValue c ->
  returns (getAllBranches octokit) all ->
  exists es,
    lists octokit (Normal all) es /\ forallb is_listing es = true /\
    main octokit host cfg = completed octokit host cfg d c all es.
Proof.
  intros Hd Hc Hall.
  destruct (main_cases octokit host cfg)
    as [(e & E & _)|[(d' & _ & E & _)
       |[(d' & c' & e & es & _ & _ & E & _)|H]]]; try congruence.
  - apply (returns_lists _ _ _ _ Hall) in E. discriminate.
  - destruct H as (d' & c' & all' & es & Hd' & Hc' & Hl & Hes & E).
    pose proof (returns_lists _ _ _ _ Hall Hl) as Eall.
    exists es. repeat split; congruence.
Qed.

Lemma main_run (octokit : Octokit) (host : Host) (cfg : Configuration)
    (d : string) (all : list Branch) :
  aborted (main octokit host cfg) = false ->
  repos_get octokit = Normal d ->
  returns (getAllBranches octokit) all ->
  exists c es,
    cutoffDate host (cfg_daysOld cfg) = TimeValue c /\
    lists octokit (Normal all) es /\ forallb is_listing es = true /\
    main octokit host cfg = completed octokit host cfg d c all es.
Proof.
  intros Hab Hd Hall.
  destruct (main_not_aborted _ _ _ Hab) as (d' & c & all' & es & Hd' & Hc & Hl & Hes & E).
  pose proof (returns_lists _ _ _ _ Hall Hl) as Eall.
  exists c, es. repeat split; congruence.
Qed.

(** ** Protected and excluded branches *)

Lemma includes_In (l : list string) (x : string) :
  includes l x = true <-> In x l.
Proof.
  unfold includes. rewrite existsb_exists. split.
  - intros (y & Hy & E). apply String.eqb_eq in E. now subst.
  - intros H. exists x. split; [exact H|apply String.eqb_refl].
Qed.

Lemma includes_not_In (l : list string) (x : string) :
  includes l x = false <-> ~ In x l.
Proof.
  rewrite <- includes_In. destruct (includes l x); split; intros H;
    try discriminate; try reflexivity; now elim H.
Qed.

(** C8. A candidate branch whose name is in the protected list (exact,
    case-sensitive equality of strings, which is what [isProtected] tests) is
    skipped with reason [protected], with that reason only, is not deleted,
    and its last commit date is never requested from the branch source. *)
Theorem C8_protected_branch_skipped_without_fetch :
  forall (octokit : Octokit) (host : Host) (cfg : Configuration)
         (d : string) (all : list Branch) (b : string),
    aborted (main octokit host cfg) = false ->
    repos_get octokit = Normal d ->
    returns (getAllBranches octokit) all ->
    In b (map name (branchesToProcess all d)) ->
    In b (protectedBranches (this (main octokit host cfg))) ->
    (forall (st : State) (x : string),
        fst (isProtected x st) = Normal true <->
        In x (protectedBranches (this st))) /\
    In {| branch := b; reason := "protected" |}
       (skippedBranches (this (main octokit host cfg))) /\
    (forall s, In s (skippedBranches (this (main octokit host cfg))) ->
               branch s = b -> reason s = "protected") /\
    ~ In b (deletedBranches (this (main octokit host cfg))) /\
    ~ In (ReposGetBranch b) (effects (main octokit host cfg)).
Proof.
  intros octokit host cfg d all b Hab Hd Hall Hb Hp.
  destruct (main_run _ _ _ _ _ Hab Hd Hall) as (c & es & Hc & Hl & Hes & E).
  rewrite E in *. clear E. simpl in Hp. apply includes_In in Hp.
  assert (Hv : verdict octokit host (withDefault (cfg_protectedBranches cfg) d)
                 (cfg_excludePattern cfg) (cfg_dryRun cfg) (TimeValue c) b
               = Skipped "protected")
    by (unfold verdict; now rewrite Hp).
  split; [|split; [|split; [|split]]].
  - intros st x. unfold isProtected, bind, gets, ret. simpl.
    rewrite <- includes_In. split; [now intros [= ->]|now intros ->].
  - simpl. apply In_skippedOf. simpl. auto.
  - simpl. intros s Hs <-. apply In_skippedOf in Hs as (_ & Hs). congruence.
  - simpl. intros H. apply In_deletedOf in H as (_ & H). congruence.
  - intros H. apply In_effects_completed in H; [|exact Hes].
    destruct H as [H|[(p & H)|[(x & _ & Hx)|(_ & [H|H])]]]; try discriminate.
    apply In_requests in Hx as (Hx & _ & [[= ->]|(H & _)]);
      [congruence|discriminate].
Qed.

(** C9. A candidate branch that is not protected and whose name matches the
    exclude pattern, when one is set and compiles, is skipped with reason
    [matches_exclude_pattern], with that reason only, whatever the branch
    source would answer about its last commit; that answer is never asked
    for, and the branch is not deleted. *)
Theorem C9_excluded_branch_skipped_without_fetch :
  forall (octokit : Octokit) (host : Host) (cfg : Configuration)
         (d : string) (all : list Branch) (b : string)
         (regex : string -> bool),
    aborted (main octokit host cfg) = false ->
    repos_get octokit = Normal d ->
    returns (getAllBranches octokit) all ->
    In b (map name (branchesToProcess all d)) ->
    ~ In b (protectedBranches (this (main octokit host cfg))) ->
    cfg_excludePattern cfg <> "" ->
    RegExpCreate host (cfg_excludePattern cfg) = Some regex ->
    regex b = true ->
    In {| branch := b; reason := "matches_exclude_pattern" |}
       (skippedBranches (this (main octokit host cfg))) /\
    (forall s, In s (skippedBranches (this (main octokit host cfg))) ->
               branch s = b -> reason s = "matches_exclude_pattern") /\
    ~ In b (deletedBranches (this (main octokit host cfg))) /\
    ~ In (ReposGetBranch b) (effects (main octokit host cfg)).
Proof.
  intros octokit host cfg d all b regex Hab Hd Hall Hb Hp Hset Hre Hm.
  destruct (main_run _ _ _ _ _ Hab Hd Hall) as (c & es & Hc & Hl & Hes & E).
  rewrite E in *. clear E. simpl in Hp. apply includes_not_In in Hp.
  assert (Hx : excluded host (cfg_excludePattern cfg) b = true).
  { unfold excluded. apply String.eqb_neq in Hset. now rewrite Hset, Hre. }
  assert (Hv : verdict octokit host (withDefault (cfg_protectedBranches cfg) d)
                 (cfg_excludePattern cfg) (cfg_dryRun cfg) (TimeValue c) b
               = Skipped "matches_exclude_pattern")
    by (unfold verdict; now rewrite Hp, Hx).
  split; [|split; [|split]].
  - simpl. apply In_skippedOf. simpl. auto.
  - simpl. intros s Hs <-. apply In_skippedOf in Hs as (_ & Hs). congruence.
  - simpl. intros H. apply In_deletedOf in H as (_ & H). congruence.
  - intros H. apply In_effects_completed in H; [|exact Hes].
    destruct H as [H|[(p & H)|[(x & _ & Hx')|(_ & [H|H])]]]; try discriminate.
    apply In_requests in Hx' as (_ & Hx' & [[= ->]|(H & _)]);
      [congruence|discriminate].
Qed.

Lemma C8_witness :
  In {| branch := "develop"; reason := "protected" |}
     (skippedBranches (this (main demoRepo utcHost (demoConfig false "")))) /\
  ~ In (ReposGetBranch "develop")
       (effects (main demoRepo utcHost (demoConfig false ""))).
Proof.
  pose proof (C8_protected_branch_skipped_without_fetch
                demoRepo utcHost (demoConfig false "") "main" demoBranches
                "develop") as H.
  assert (H1 : aborted (main demoRepo utcHost (demoConfig false "")) = false)
    by (vm_compute; reflexivity).
  assert (H2 : repos_get demoRepo = Normal "main") by reflexivity.
  assert (H3 : returns (getAllBranches demoRepo) demoBranches)
    by (intros st; reflexivity).
  assert (H4 : In "develop" (map name (branchesToProcess demoBranches "main")))
    by pick_member.
  assert (H5 : In "develop"
                 (protectedBranches
                    (this (main demoRepo utcHost (demoConfig false "")))))
    by pick_member.
  destruct (H H1 H2 H3 H4 H5) as (_ & Hs & _ & _ & Hf).
  split; assumption.
Defined.

Lemma C9_witness :
  In {| branch := "release/1.0"; reason := "matches_exclude_pattern" |}
     (skippedBranches
        (this (main demoRepo utcHost (demoConfig false "^release/")))) /\
  ~ In (ReposGetBranch "release/1.0")
       (effects (main demoRepo utcHost (demoConfig false "^release/"))).
Proof.
  pose proof (C9_excluded_branch_skipped_without_fetch
                demoRepo utcHost (demoConfig false "^release/") "main"
                demoBranches "release/1.0" (String.prefix "release/")) as H.
  assert (H1 : aborted (main demoRepo utcHost (demoConfig false "^release/"))
               = false) by (vm_compute; reflexivity).
  assert (H2 : repos_get demoRepo = Normal "main") by reflexivity.
  assert (H3 : returns (getAllBranches demoRepo) demoBranches)
    by (intros st; reflexivity).
  assert (H4 : In "release/1.0"
                 (map name (branchesToProcess demoBranches "main")))
    by pick_member.
  assert (H5 : ~ In "release/1.0"
                   (protectedBranches
                      (this (main demoRepo utcHost
                               (demoConfig false "^release/")))))
    by no_member.
  assert (H6 : cfg_excludePattern (demoConfig false "^release/") <> "")
    by discriminate.
  assert (H7 : RegExpCreate utcHost
                 (cfg_excludePattern (demoConfig false "^release/"))
               = Some (String.prefix "release/")) by reflexivity.
  assert (H8 : String.prefix "release/" "release/1.0" = true) by reflexivity.
  destruct (H H1 H2 H3 H4 H5 H6 H7 H8) as (Hs & _ & _ & Hf).
  split; assumption.
Defined.

(** ** Calls on branches happen in completed runs only *)

Lemma branch_call_in_main (octokit : Octokit) (host : Host)
    (cfg : Configuration) (e : Effect) :
  is_branch_call e = true ->
  In e (effects (main octokit host cfg)) ->
  exists d c all es x,
    repos_get octokit = Normal d /\
    cutoffDate host (cfg_daysOld cfg) = TimeValue c /\
    lists octokit (Normal all) es /\
    main octokit host cfg = completed octokit host cfg d c all es /\
    In x (map name (branchesToProcess all d)) /\
    In e (requests octokit host (withDefault (cfg_protectedBranches cfg) d)
            (cfg_excludePattern cfg) (cfg_dryRun cfg) (TimeValue c) x).
Proof.
  intros Hcall He.
  destruct (main_cases octokit host cfg)
    as [(e0 & _ & _ & E)|[(d & _ & _ & _ & E)
       |[(d & c & e0 & es & _ & _ & _ & Hes & _ & E)
        |(d & c & all & es & Hd & Hc & Hl & Hes & E)]]].
  - rewrite E in He. destruct He as [<-|[<-|[]]]; discriminate.
  - rewrite E in He. destruct He as [<-|[<-|[]]]; discriminate.
  - rewrite E in He. destruct He as [<-|He]; [discriminate|].
    apply in_app_iff in He as [He|[<-|[]]]; [|discriminate].
    destruct (listing_calls _ _ Hes He) as (p & ->). discriminate.
  - rewrite E in He. apply In_effects_completed in He; [|exact Hes].
    destruct He as [->|[(p & ->)|[(x & Hx & Hr)|(_ & [->| ->])]]];
      try discriminate.
    exists d, c, all, es, x. auto 10.
Qed.

Lemma protected_main (octokit : Octokit) (host : Host) (cfg : Configuration)
    (d : string) :
  repos_get octokit = Normal d ->
  protectedBranches (this (main octokit host cfg)) =
    withDefault (cfg_protectedBranches cfg) d.
Proof.
  intros Hd.
  destruct (main_cases octokit host cfg)
    as [(e0 & E0 & _)|[(d' & Hd' & _ & E & _)
       |[(d' & c & e0 & es & Hd' & _ & _ & _ & E & _)
        |(d' & c & all & es & Hd' & _ & _ & _ & E)]]];
    try congruence; rewrite E; simpl; congruence.
Qed.

Lemma In_withDefault (protected : list string) (d : string) :
  In d (withDefault protected d).
Proof.
  unfold withDefault. destruct (includes protected d) eqn:E.
  - now apply includes_In.
  - apply in_app_iff. right. now left.
Qed.

Lemma default_not_candidate (all : list Branch) (d : string) :
  ~ In d (map name (branchesToProcess all d)).
Proof.
  unfold branchesToProcess. intros H.
  apply in_map_iff in H as (b & <- & Hb). apply filter_In in Hb as (_ & Hb).
  now rewrite String.eqb_refl in Hb.
Qed.

Lemma heads_inj (x y : string) :
  ("heads/" ++ x)%string = ("heads/" ++ y)%string -> x = y.
Proof. simpl. now intros [= ->]. Qed.

(** ** The default branch *)

(** C3. Whatever the configuration, once the default branch is known it is
    not among the branches to process, it is not in the deleted list and no
    deletion of its reference is requested; it is in the protected list at
    the end of the run, appended to the configured list exactly when it was
    absent from it; and the loop over the candidates starts from an instance
    that already protects it, has recorded nothing and has issued no call on
    a branch. *)
Theorem C3_default_branch_always_protected :
  forall (octokit : Octokit) (host : Host) (cfg : Configuration) (d : string),
    repos_get octokit = Normal d ->
    (forall all, ~ In d (map name (branchesToProcess all d))) /\
    ~ In d (deletedBranches (this (main octokit host cfg))) /\
    ~ In (GitDeleteRef ("heads/" ++ d)%string)
         (effects (main octokit host cfg)) /\
    In d (protectedBranches (this (main octokit host cfg))) /\
    protectedBranches (this (main octokit host cfg)) =
      (if includes (cfg_protectedBranches cfg) d
       then cfg_protectedBranches cfg
       else cfg_protectedBranches cfg ++ [d])%list /\
    (forall all c,
        returns (getAllBranches octokit) all ->
        cutoffDate host (cfg_daysOld cfg) = TimeValue c ->
        exists entry : State,
          In d (protectedBranches (this entry)) /\
          deletedBranches (this entry) = [] /\
          skippedBranches (this entry) = [] /\
          existsb is_branch_call (effects entry) = false /\
          this (main octokit host cfg) =
            this (snd (forOf (branchesToProcess all d)
                         (processBranch octokit host (TimeValue c)) entry))).
Proof.
  intros octokit host cfg d Hd.
  split; [intros all; apply default_not_candidate|].
  split; [|split; [|split; [|split]]].
  - destruct (main_cases octokit host cfg)
      as [(e0 & E0 & _)|[(d' & _ & _ & E & _)
         |[(d' & c & e0 & es & _ & _ & _ & _ & E & _)
          |(d' & c & all & es & Hd' & _ & _ & _ & E)]]];
      try congruence; rewrite E; simpl; auto.
    intros H. apply In_deletedOf in H as (H & _).
    assert (d' = d) by congruence. subst d'.
    exact (default_not_candidate _ _ H).
  - intros H. apply branch_call_in_main in H; [|reflexivity].
    destruct H as (d' & c & all & es & x & Hd' & _ & _ & _ & Hx & Hr).
    assert (d' = d) by congruence. subst d'.
    apply In_requests in Hr as (_ & _ & [Hr|(Hr & _)]); [discriminate|].
    assert (x = d) by (apply heads_inj; congruence). subst x.
    exact (default_not_candidate _ _ Hx).
  - rewrite (protected_main _ _ _ _ Hd). apply In_withDefault.
  - now rewrite (protected_main _ _ _ _ Hd).
  - intros all c Hall Hc.
    destruct (main_completed _ _ cfg _ _ _ Hd Hc Hall) as (es & Hl & Hes & E).
    exists {| this := configured cfg (withDefault (cfg_protectedBranches cfg) d);
              effects := ReposGet :: es |}.
    split; [apply In_withDefault|]. split; [reflexivity|].
    split; [reflexivity|]. split.
    + simpl. destruct (existsb is_branch_call es) eqn:Ex; [|reflexivity].
      apply existsb_exists in Ex as (e & He & Hcall).
      destruct (listing_calls _ _ Hes He) as (p & ->). discriminate.
    + rewrite forOf_processBranch_eq, E. reflexivity.
Qed.

Lemma C3_witness :
  ~ In "main" (deletedBranches
                 (this (main openRepo utcHost (demoConfig false "")))) /\
  ~ In (GitDeleteRef "heads/main")
       (effects (main openRepo utcHost (demoConfig false ""))) /\
  protectedBranches (this (main openRepo utcHost (demoConfig false ""))) =
    ["master"; "develop"; "main"].
Proof.
  assert (H1 : repos_get openRepo = Normal "main") by reflexivity.
  destruct (C3_default_branch_always_protected
              openRepo utcHost (demoConfig false "") "main" H1)
    as (_ & Hd & Hr & _ & Hp & _).
  split; [exact Hd|]. split; [exact Hr|exact Hp].
Defined.

(** ** Dry runs *)

(** C4. In a dry run no deletion of a reference is ever requested, whatever
    the listing and the rest of the configuration; a branch whose commit date
    was fetched and lies before the cutoff is recorded in the deleted list
    all the same. *)
Theorem C4_dry_run_issues_no_deletion :
  forall (octokit : Octokit) (host : Host) (cfg : Configuration),
    cfg_dryRun cfg = true ->
    (forall ref, ~ In (GitDeleteRef ref) (effects (main octokit host cfg))) /\
    (forall b t c,
        In (ReposGetBranch b) (effects (main octokit host cfg)) ->
        repos_getBranch octokit b = Normal (TimeValue t) ->
        cutoffDate host (cfg_daysOld cfg) = TimeValue c ->
        t < c ->
        In b (deletedBranches (this (main octokit host cfg)))).
Proof.
  intros octokit host cfg Hdry. split.
  - intros ref H. apply branch_call_in_main in H; [|reflexivity].
    destruct H as (d & c & all & es & x & _ & _ & _ & _ & _ & Hr).
    apply In_requests in Hr as (_ & _ & [Hr|(_ & Hr & _)]); congruence.
  - intros b t c H Ht Hc Hlt. apply branch_call_in_main in H; [|reflexivity].
    destruct H as (d & c' & all & es & x & _ & Hc' & _ & E & Hx & Hr).
    assert (c' = c) by congruence. subst c'.
    apply In_requests in Hr as (Hp & Hx' & [[= ->]|(Hr & _)]); [|discriminate].
    rewrite E. simpl. apply In_deletedOf. split; [exact Hx|].
    unfold verdict. rewrite Hp, Hx', Ht, Hdry.
    unfold date_lt. apply Z.ltb_lt in Hlt. now rewrite Hlt.
Qed.

Lemma C4_witness :
  (forall ref, ~ In (GitDeleteRef ref)
                    (effects (main demoRepo utcHost (demoConfig true "")))) /\
  In "locked" (deletedBranches
                 (this (main demoRepo utcHost (demoConfig true "")))).
Proof.
  assert (H1 : cfg_dryRun (demoConfig true "") = true) by reflexivity.
  destruct (C4_dry_run_issues_no_deletion demoRepo utcHost
              (demoConfig true "") H1) as (Hn & Hd).
  split; [exact Hn|].
  apply (Hd "locked" (demoClock - day 15) (demoClock - day 14)).
  - pick_member.
  - reflexivity.
  - reflexivity.
  - vm_compute. reflexivity.
Defined.

(** ** Every candidate is recorded once *)

Lemma NoDup_candidates (all : list Branch) (d : string) :
  NoDup (map name all) -> NoDup (map name (branchesToProcess all d)).
Proof.
  unfold branchesToProcess. induction all as [|b all IH]; intros H; [exact H|].
  simpl in H. apply NoDup_cons_iff in H as (Hb & H). simpl.
  destruct (negb (String.eqb (name b) d)); [|now apply IH].
  simpl. constructor; [|now apply IH].
  intros Hin. apply Hb. apply in_map_iff in Hin as (b' & E & Hb').
  apply filter_In in Hb' as (Hb' & _). rewrite <- E. now apply in_map.
Qed.

(** C2. In a run that does not abort, over a listing whose names are all
    different, every branch to process occurs exactly once in the deleted
    list and the names of the skipped list taken together; and these two
    lists name nothing but branches to process. *)
Theorem C2_every_candidate_recorded_exactly_once :
  forall (octokit : Octokit) (host : Host) (cfg : Configuration)
         (d : string) (all : list Branch),
    aborted (main octokit host cfg) = false ->
    repos_get octokit = Normal d ->
    returns (getAllBranches octokit) all ->
    NoDup (map name all) ->
    (forall b,
        In b (map name (branchesToProcess all d)) ->
        count_occ string_dec
          (deletedBranches (this (main octokit host cfg))
           ++ map branch (skippedBranches (this (main octokit host cfg)))) b
        = 1%nat) /\
    (forall x,
        In x (deletedBranches (this (main octokit host cfg))
              ++ map branch (skippedBranches (this (main octokit host cfg)))) ->
        In x (map name (branchesToProcess all d))).
Proof.
  intros octokit host cfg d all Hab Hd Hall Hnd.
  destruct (main_run _ _ _ _ _ Hab Hd Hall) as (c & es & Hc & Hl & Hes & E).
  rewrite E. simpl. split.
  - intros b Hb. rewrite count_occ_lists.
    apply NoDup_count_occ'; [now apply NoDup_candidates|exact Hb].
  - intros x Hx. apply (count_occ_In string_dec) in Hx.
    rewrite count_occ_lists in Hx. now apply (count_occ_In string_dec).
Qed.

Lemma C2_witness :
  count_occ string_dec
    (deletedBranches (this (main demoRepo utcHost (demoConfig false "")))
     ++ map branch
          (skippedBranches (this (main demoRepo utcHost (demoConfig false "")))))
    "locked" = 1%nat.
Proof.
  assert (H1 : aborted (main demoRepo utcHost (demoConfig false "")) = false)
    by (vm_compute; reflexivity).
  assert (H2 : repos_get demoRepo = Normal "main") by reflexivity.
  assert (H3 : returns (getAllBranches demoRepo) demoBranches)
    by (intros st; reflexivity).
  assert (H4 : NoDup (map name demoBranches)).
  { simpl. repeat (constructor; [no_member|]). constructor. }
  destruct (C2_every_candidate_recorded_exactly_once
              demoRepo utcHost (demoConfig false "") "main" demoBranches
              H1 H2 H3 H4) as (Hone & _).
  apply Hone. pick_member.
Defined.

(** ** Age against the cutoff *)

Lemma setDate_days (t n : Z) :
  MakeDate (Day t - n) (TimeWithinDay t) = t - n * msPerDay.
Proof.
  unfold MakeDate, Day, TimeWithinDay.
  pose proof (Z.div_mod t msPerDay) as H.
  assert (msPerDay <> 0) by (unfold msPerDay; lia). specialize (H H0). lia.
Qed.

Lemma cutoffDate_valid (host : Host) (n : Num) (c : Z) :
  cutoffDate host n = TimeValue c ->
  exists k, n = Int k /\
            c = UTC host (LocalTime host (clock host) - k * msPerDay).
Proof.
  destruct n as [k|]; [|discriminate]. unfold cutoffDate.
  rewrite setDate_days. unfold TimeClip.
  destruct (Z.abs _ <=? _); [|discriminate]. intros [= <-]. now exists k.
Qed.

Lemma verdict_fetched (octokit : Octokit) (host : Host)
    (protected : list string) (pattern : string) (dry : bool) (c t : Z)
    (b : string) :
  includes protected b = false ->
  excluded host pattern b = false ->
  repos_getBranch octokit b = Normal (TimeValue t) ->
  verdict octokit host protected pattern dry (TimeValue c) b =
    if t <? c then
      if dry then Deleted
      else match git_deleteRef octokit ("heads/" ++ b)%string with
           | Normal _ => Deleted
           | Throw _ => Skipped "deletion_failed"
           end
    else Skipped "too_recent".
Proof. intros Hp Hx Ht. unfold verdict. now rewrite Hp, Hx, Ht. Qed.

(** C1. When the engine has fetched the last commit of a branch and the
    answer is the time value [t], the cutoff is one valid date [c], the same
    for every branch: the clock reading of line 161 moved back by [daysOld]
    calendar days of local time.  The branch is deletable (in the deleted
    list, or skipped as [deletion_failed]) exactly when [t < c], and skipped
    as [too_recent] exactly when [c <= t]; a deletable branch is in the
    deleted list exactly when the run is dry or the deletion succeeds.  With
    14 days, and a time zone whose adjustment moves by less than a day, a
    commit 15 days before the clock reading is deletable and one 13 days
    before it is too recent. *)
Theorem C1_age_against_fixed_cutoff :
  forall (octokit : Octokit) (host : Host) (cfg : Configuration)
         (b : string) (t : Z),
    In (ReposGetBranch b) (effects (main octokit host cfg)) ->
    repos_getBranch octokit b = Normal (TimeValue t) ->
    exists n c,
      cfg_daysOld cfg = Int n /\
      cutoffDate host (cfg_daysOld cfg) = TimeValue c /\
      c = UTC host (LocalTime host (clock host) - n * msPerDay) /\
      (t < c <->
       In b (deletedBranches (this (main octokit host cfg))) \/
       In {| branch := b; reason := "deletion_failed" |}
          (skippedBranches (this (main octokit host cfg)))) /\
      (c <= t <->
       In {| branch := b; reason := "too_recent" |}
          (skippedBranches (this (main octokit host cfg)))) /\
      (In b (deletedBranches (this (main octokit host cfg))) <->
       t < c /\
       (cfg_dryRun cfg = true \/
        git_deleteRef octokit ("heads/" ++ b)%string = Normal tt)) /\
      (In {| branch := b; reason := "deletion_failed" |}
          (skippedBranches (this (main octokit host cfg))) <->
       t < c /\ cfg_dryRun cfg = false /\
       exists e, git_deleteRef octokit ("heads/" ++ b)%string = Throw e) /\
      (n = 14 ->
       (forall u v,
           Z.abs (LocalTZA host u true - LocalTZA host v false) < msPerDay) ->
       (t = clock host - 15 * msPerDay -> t < c) /\
       (t = clock host - 13 * msPerDay -> c <= t)).
Proof.
  intros octokit host cfg b t H Ht.
  apply branch_call_in_main in H; [|reflexivity].
  destruct H as (d & c & all & es & x & _ & Hc & _ & E & Hx & Hr).
  apply In_requests in Hr as (Hp & Hx' & [[= <-]|(Hr & _)]); [|discriminate].
  destruct (cutoffDate_valid _ _ _ Hc) as (n & Hn & Hcn).
  exists n, c. split; [exact Hn|]. split; [exact Hc|]. split; [exact Hcn|].
  pose proof (verdict_fetched octokit host _ _ (cfg_dryRun cfg) c t b Hp Hx' Ht)
    as Hv.
  rewrite E. simpl. rewrite !In_deletedOf, !In_skippedOf. simpl.
  rewrite Hv. clear Hv E.
  split; [|split; [|split; [|split]]].
  - destruct (Z.ltb_spec t c); [|split; [lia|intros [(_ & ?)|(_ & ?)]; discriminate]].
    split; [intros _|auto]. destruct (cfg_dryRun cfg); [auto|].
    destruct (git_deleteRef octokit _); auto.
  - destruct (Z.ltb_spec t c); [|split; auto].
    split; [lia|]. intros (_ & Hk). destruct (cfg_dryRun cfg); [discriminate|].
    destruct (git_deleteRef octokit _); discriminate.
  - destruct (Z.ltb_spec t c); [|split; [intros (_ & ?); discriminate|lia]].
    destruct (cfg_dryRun cfg); [split; auto|].
    destruct (git_deleteRef octokit _) as [[]|e].
    + split; auto.
    + split; [intros (_ & ?); discriminate|intros (_ & [?|?]); discriminate].
  - destruct (Z.ltb_spec t c);
      [|split; [intros (_ & ?); discriminate|lia]].
    destruct (cfg_dryRun cfg);
      [split; [intros (_ & ?); discriminate|intros (_ & ? & _); discriminate]|].
    destruct (git_deleteRef octokit _) as [[]|e].
    + split; [intros (_ & ?); discriminate|intros (_ & _ & e & ?); discriminate].
    + split; [intros _; repeat split; eauto|auto].
  - intros -> Htz. subst c. unfold UTC, LocalTime.
    pose proof (Htz (clock host)
                  (clock host + LocalTZA host (clock host) true - 14 * msPerDay))
      as Hb.
    unfold msPerDay in *. split; intros ->; lia.
Qed.

Lemma C1_witness :
  In "locked"
     (deletedBranches (this (main demoRepo utcHost (demoConfig false "")))) \/
  In {| branch := "locked"; reason := "deletion_failed" |}
     (skippedBranches (this (main demoRepo utcHost (demoConfig false "")))).
Proof.
  assert (H1 : In (ReposGetBranch "locked")
                  (effects (main demoRepo utcHost (demoConfig false ""))))
    by pick_member.
  assert (H2 : repos_getBranch demoRepo "locked"
               = Normal (TimeValue (demoClock - day 15))) by reflexivity.
  destruct (C1_age_against_fixed_cutoff demoRepo utcHost (demoConfig false "")
              "locked" (demoClock - day 15) H1 H2)
    as (n & c & Hn & _ & _ & Hdel & _ & _ & _ & Hex).
  assert (H3 : n = 14) by (simpl in Hn; congruence).
  assert (H4 : forall u v,
             Z.abs (LocalTZA utcHost u true - LocalTZA utcHost v false)
             < msPerDay) by (intros u v; reflexivity).
  destruct (Hex H3 H4) as (Hold & _).
  apply Hdel. apply Hold. reflexivity.
Defined.

(** ** Two runs on the same repository *)

Lemma filter_listing (es : list Effect) :
  forallb is_listing es = true ->
  filter (fun e => negb (is_GitDeleteRef e)) es = es.
Proof.
  induction es as [|e es IH]; [reflexivity|]. simpl.
  intros H. apply andb_prop in H as (He & H).
  destruct e; try discriminate. simpl. now rewrite IH.
Qed.

(** Two configurations that agree on the threshold and on the protected names
    either both abort, with the same calls and nothing recorded, or both
    complete on the same default branch, cutoff and listing. *)
Lemma main_pair (octokit : Octokit) (host : Host) (cfg1 cfg2 : Configuration) :
  cfg_daysOld cfg1 = cfg_daysOld cfg2 ->
  (aborted (main octokit host cfg1) = true /\
   aborted (main octokit host cfg2) = true /\
   effects (main octokit host cfg1) = effects (main octokit host cfg2) /\
   filter (fun e => negb (is_GitDeleteRef e)) (effects (main octokit host cfg1))
     = effects (main octokit host cfg1) /\
   deletedBranches (this (main octokit host cfg1)) = [] /\
   deletedBranches (this (main octokit host cfg2)) = [] /\
   skippedBranches (this (main octokit host cfg1)) = [] /\
   skippedBranches (this (main octokit host cfg2)) = [])
  \/
  (exists d c all es,
     forallb is_listing es = true /\
     main octokit host cfg1 = completed octokit host cfg1 d c all es /\
     main octokit host cfg2 = completed octokit host cfg2 d c all es).
Proof.
  intros Hn.
  destruct (main_cases octokit host cfg1)
    as [(e1 & Hd1 & T1 & E1)|[(d1 & Hd1 & Hc1 & T1 & E1)
       |[(d1 & c1 & e1 & es1 & Hd1 & Hc1 & Hl1 & Hes1 & T1 & E1)
        |(d1 & c1 & all1 & es1 & Hd1 & Hc1 & Hl1 & Hes1 & E1)]]];
  destruct (main_cases octokit host cfg2)
    as [(e2 & Hd2 & T2 & E2)|[(d2 & Hd2 & Hc2 & T2 & E2)
       |[(d2 & c2 & e2 & es2 & Hd2 & Hc2 & Hl2 & Hes2 & T2 & E2)
        |(d2 & c2 & all2 & es2 & Hd2 & Hc2 & Hl2 & Hes2 & E2)]]];
  try congruence;
  try (destruct (lists_unique _ _ _ _ _ Hl1 Hl2) as (Er & Ees); try discriminate).
  - left. unfold aborted. rewrite E1, E2, T1, T2.
    assert (e1 = e2) by congruence. subst. repeat split; reflexivity.
  - left. unfold aborted. rewrite E1, E2, T1, T2. repeat split; reflexivity.
  - left. unfold aborted. rewrite E1, E2, T1, T2.
    injection Er as ->. subst es2. simpl.
    rewrite existsb_app, filter_app, (filter_listing _ Hes1). simpl.
    rewrite orb_true_r. repeat split; reflexivity.
  - right. injection Er as ->. subst es2.
    assert (d1 = d2) by congruence. assert (c1 = c2) by congruence. subst.
    exists d2, c2, all2, es1. auto.
Qed.

Section Pointwise.

Variable octokit : Octokit.
Variable host : Host.
Variable cutoff : JSDate.

(** The result lists depend on the configuration through the verdicts on the
    listed names only, and the calls through the requests. *)
Lemma lists_ext (p1 p2 : list string) (x1 x2 : string) (d1 d2 : bool)
    (l : list Branch) :
  (forall x, In x (map name l) ->
             verdict octokit host p1 x1 d1 cutoff x
             = verdict octokit host p2 x2 d2 cutoff x) ->
  deletedOf octokit host p1 x1 d1 cutoff l
  = deletedOf octokit host p2 x2 d2 cutoff l /\
  skippedOf octokit host p1 x1 d1 cutoff l
  = skippedOf octokit host p2 x2 d2 cutoff l.
Proof.
  unfold deletedOf, skippedOf.
  induction l as [|b l IH]; intros H; [split; reflexivity|].
  simpl. rewrite (H (name b)) by (simpl; auto).
  destruct IH as (-> & ->); [intros x Hx; apply H; simpl; auto|].
  split; reflexivity.
Qed.

Lemma requestsOf_filter (f : Effect -> bool) (p1 p2 : list string)
    (x1 x2 : string) (d1 d2 : bool) (l : list Branch) :
  (forall x, filter f (requests octokit host p1 x1 d1 cutoff x)
             = requests octokit host p2 x2 d2 cutoff x) ->
  filter f (requestsOf octokit host p1 x1 d1 cutoff l)
  = requestsOf octokit host p2 x2 d2 cutoff l.
Proof.
  intros H. unfold requestsOf. induction l as [|b l IH]; [reflexivity|].
  simpl. now rewrite filter_app, H, IH.
Qed.

Lemma requests_dry_live (protected : list string) (pattern : string)
    (x : string) :
  filter (fun e => negb (is_GitDeleteRef e))
    (requests octokit host protected pattern false cutoff x)
  = requests octokit host protected pattern true cutoff x.
Proof.
  unfold requests.
  destruct (includes protected x); [reflexivity|].
  destruct (excluded host pattern x); [reflexivity|].
  destruct (repos_getBranch octokit x) as [[t|]|]; try reflexivity.
  destruct (date_lt (TimeValue t) cutoff); reflexivity.
Qed.

Lemma verdict_dry_live (protected : list string) (pattern : string)
    (x : string) :
  (forall ref,
      In (GitDeleteRef ref)
         (requests octokit host protected pattern false cutoff x) ->
      git_deleteRef octokit ref = Normal tt) ->
  verdict octokit host protected pattern true cutoff x
  = verdict octokit host protected pattern false cutoff x.
Proof.
  unfold requests, verdict.
  destruct (includes protected x); [reflexivity|].
  destruct (excluded host pattern x); [reflexivity|].
  destruct (repos_getBranch octokit x) as [[t|]|]; try reflexivity.
  destruct (date_lt (TimeValue t) cutoff); [|reflexivity].
  intros H. rewrite (H ("heads/" ++ x)%string); [reflexivity|].
  right. now left.
Qed.

Lemma excluded_invalid (pattern : string) (x : string) :
  RegExpCreate host pattern = None -> excluded host pattern x = false.
Proof.
  intros H. unfold excluded. rewrite H. now destruct (String.eqb pattern "").
Qed.

Lemma verdict_never_matching (protected : list string) (pattern : string)
    (dry : bool) (x : string) :
  (forall y, excluded host pattern y = false) ->
  verdict octokit host protected pattern dry cutoff x
  <> Skipped "matches_exclude_pattern".
Proof.
  intros H. unfold verdict. rewrite H.
  destruct (includes protected x); [discriminate|].
  destruct (repos_getBranch octokit x) as [[t|]|]; try discriminate.
  destruct (date_lt (TimeValue t) cutoff); [|discriminate].
  destruct dry; [discriminate|].
  destruct (git_deleteRef octokit _); discriminate.
Qed.

Lemma requestsOf_ext (p1 p2 : list string) (x1 x2 : string) (d1 d2 : bool)
    (l : list Branch) :
  (forall x, requests octokit host p1 x1 d1 cutoff x
             = requests octokit host p2 x2 d2 cutoff x) ->
  requestsOf octokit host p1 x1 d1 cutoff l
  = requestsOf octokit host p2 x2 d2 cutoff l.
Proof. intros H. unfold requestsOf. apply flat_map_ext. intros b. apply H. Qed.

Lemma never_matching_as_unset (protected : list string) (pattern : string)
    (dry : bool) (x : string) :
  (forall y, excluded host pattern y = false) ->
  verdict octokit host protected pattern dry cutoff x
  = verdict octokit host protected "" dry cutoff x /\
  requests octokit host protected pattern dry cutoff x
  = requests octokit host protected "" dry cutoff x.
Proof. intros H. unfold verdict, requests. rewrite H. split; reflexivity. Qed.

End Pointwise.

Lemma requests_in_completed (octokit : Octokit) (host : Host)
    (cfg : Configuration) (d : string) (c : Z) (all : list Branch)
    (es : list Effect) (x : string) (e : Effect) :
  In x (map name (branchesToProcess all d)) ->
  In e (requests octokit host (withDefault (cfg_protectedBranches cfg) d)
          (cfg_excludePattern cfg) (cfg_dryRun cfg) (TimeValue c) x) ->
  In e (effects (completed octokit host cfg d c all es)).
Proof.
  intros Hx He. unfold completed. cbn [effects].
  destruct (branchesToProcess all d) as [|b0 todo] eqn:Htodo; [contradiction|].
  cbn [List.length Nat.eqb]. right. rewrite !in_app_iff. right; left.
  apply In_requestsOf. now exists x.
Qed.

(** C5. On the same branch source, at the same clock reading and with
    configurations that differ in the dry-run flag only, if every deletion
    the live run requests succeeds then the dry run ends with the same
    deleted list and the same skipped list as the live run, and its calls
    are those of the live run without the deletions. *)
Theorem C5_dry_run_reports_what_live_run_reports :
  forall (octokit : Octokit) (host : Host) (cfg : Configuration),
    (forall ref,
        In (GitDeleteRef ref)
           (effects (main octokit host (withDryRun cfg false))) ->
        git_deleteRef octokit ref = Normal tt) ->
    deletedBranches (this (main octokit host (withDryRun cfg true)))
    = deletedBranches (this (main octokit host (withDryRun cfg false))) /\
    skippedBranches (this (main octokit host (withDryRun cfg true)))
    = skippedBranches (this (main octokit host (withDryRun cfg false))) /\
    effects (main octokit host (withDryRun cfg true))
    = filter (fun e => negb (is_GitDeleteRef e))
        (effects (main octokit host (withDryRun cfg false))).
Proof.
  intros octokit host cfg Hok.
  destruct (main_pair octokit host (withDryRun cfg false) (withDryRun cfg true)
              eq_refl)
    as [(_ & _ & Ee & Ef & D1 & D2 & S1 & S2)|(d & c & all & es & Hes & E1 & E2)].
  { rewrite D1, D2, S1, S2, Ef, Ee. auto. }
  rewrite E1 in Hok. rewrite E1, E2. clear E1 E2.
  assert (Hv : forall x,
             In x (map name (branchesToProcess all d)) ->
             verdict octokit host (withDefault (cfg_protectedBranches cfg) d)
               (cfg_excludePattern cfg) true (TimeValue c) x
             = verdict octokit host (withDefault (cfg_protectedBranches cfg) d)
                 (cfg_excludePattern cfg) false (TimeValue c) x).
  { intros x Hx. apply verdict_dry_live. intros ref Hr. apply Hok.
    now apply (requests_in_completed octokit host (withDryRun cfg false)
                 d c all es x). }
  apply lists_ext in Hv as (Ed & Es).
  unfold completed. cbn. rewrite Ed, Es. split; [reflexivity|].
  split; [reflexivity|].
  destruct (Nat.eqb (List.length (branchesToProcess all d)) 0).
  - simpl. now rewrite (filter_listing _ Hes).
  - simpl. rewrite !filter_app, (filter_listing _ Hes).
    rewrite (requestsOf_filter octokit host (TimeValue c) _ _
               (withDefault (cfg_protectedBranches cfg) d) _
               (cfg_excludePattern cfg) _ true)
      by (intros x; apply requests_dry_live).
    reflexivity.
Qed.

Lemma C5_witness :
  deletedBranches (this (main openRepo utcHost (demoConfig true "")))
  = deletedBranches (this (main openRepo utcHost (demoConfig false ""))) /\
  skippedBranches (this (main openRepo utcHost (demoConfig true "")))
  = skippedBranches (this (main openRepo utcHost (demoConfig false ""))).
Proof.
  assert (H1 : forall ref,
             In (GitDeleteRef ref)
                (effects (main openRepo utcHost
                            (withDryRun (demoConfig false "") false))) ->
             git_deleteRef openRepo ref = Normal tt)
    by (intros ref _; reflexivity).
  destruct (C5_dry_run_reports_what_live_run_reports
              openRepo utcHost (demoConfig false "") H1) as (Hd & Hs & _).
  split; [exact Hd|exact Hs].
Defined.

(** ** Failures that do not stop the run *)

(** C7. When the exclude pattern does not compile, [matchesExcludePattern]
    answers [false] for every branch and throws nothing; no skipped entry
    carries the reason [matches_exclude_pattern]; the run makes the calls and
    ends with the lists of the run that has no exclude pattern at all; and it
    completes whenever the default branch, the cutoff and the listing are
    obtained. *)
Theorem C7_invalid_pattern_is_never_matching :
  forall (octokit : Octokit) (host : Host) (cfg : Configuration),
    RegExpCreate host (cfg_excludePattern cfg) = None ->
    (forall (st : State) (b : string),
        excludePattern (this st) = cfg_excludePattern cfg ->
        matchesExcludePattern host b st = (Normal false, st)) /\
    (forall s, In s (skippedBranches (this (main octokit host cfg))) ->
               reason s <> "matches_exclude_pattern") /\
    deletedBranches (this (main octokit host cfg))
    = deletedBranches (this (main octokit host (withPattern cfg ""))) /\
    skippedBranches (this (main octokit host cfg))
    = skippedBranches (this (main octokit host (withPattern cfg ""))) /\
    effects (main octokit host cfg)
    = effects (main octokit host (withPattern cfg "")) /\
    (forall d c all,
        repos_get octokit = Normal d ->
        cutoffDate host (cfg_daysOld cfg) = TimeValue c ->
        returns (getAllBranches octokit) all ->
        aborted (main octokit host cfg) = false).
Proof.
  intros octokit host cfg Hre.
  assert (Hx : forall y, excluded host (cfg_excludePattern cfg) y = false)
    by (intros y; now apply excluded_invalid).
  split; [|split; [|split; [|split; [|split]]]].
  - intros st b E. unfold matchesExcludePattern, bind, gets, ret.
    rewrite E, Hre. now destruct (String.eqb (cfg_excludePattern cfg) "").
  - intros s Hs Hr.
    destruct (main_pair octokit host cfg cfg eq_refl)
      as [(_ & _ & _ & _ & _ & _ & S1 & _)|(d & c & all & es & Hes & E & _)].
    + rewrite S1 in Hs. contradiction.
    + rewrite E in Hs. simpl in Hs. apply In_skippedOf in Hs as (_ & Hs).
      rewrite Hr in Hs. now apply verdict_never_matching in Hs.
  - destruct (main_pair octokit host cfg (withPattern cfg "") eq_refl)
      as [(_ & _ & _ & _ & D1 & D2 & _)|(d & c & all & es & Hes & E1 & E2)];
      [congruence|].
    rewrite E1, E2. simpl. apply lists_ext. intros x _.
    now apply never_matching_as_unset.
  - destruct (main_pair octokit host cfg (withPattern cfg "") eq_refl)
      as [(_ & _ & _ & _ & _ & _ & S1 & S2)|(d & c & all & es & Hes & E1 & E2)];
      [congruence|].
    rewrite E1, E2. simpl. apply lists_ext. intros x _.
    now apply never_matching_as_unset.
  - destruct (main_pair octokit host cfg (withPattern cfg "") eq_refl)
      as [(_ & _ & Ee & _)|(d & c & all & es & Hes & E1 & E2)];
      [exact Ee|].
    rewrite E1, E2. unfold completed. cbn.
    destruct (lists_ext octokit host (TimeValue c)
                (withDefault (cfg_protectedBranches cfg) d)
                (withDefault (cfg_protectedBranches cfg) d)
                (cfg_excludePattern cfg) "" (cfg_dryRun cfg) (cfg_dryRun cfg)
                (branchesToProcess all d)) as (-> & ->).
    { intros x _. now apply never_matching_as_unset. }
    rewrite (requestsOf_ext octokit host (TimeValue c)
               (withDefault (cfg_protectedBranches cfg) d)
               (withDefault (cfg_protectedBranches cfg) d)
               (cfg_excludePattern cfg) "" (cfg_dryRun cfg) (cfg_dryRun cfg));
      [reflexivity|].
    intros x. now apply never_matching_as_unset.
  - intros d c all Hd Hc Hall.
    destruct (main_completed _ _ cfg _ _ _ Hd Hc Hall) as (es & _ & Hes & E).
    rewrite E. now apply aborted_completed.
Qed.

Lemma C7_witness :
  skippedBranches (this (main demoRepo utcHost (demoConfig false "(")))
  = skippedBranches (this (main demoRepo utcHost (demoConfig false ""))) /\
  aborted (main demoRepo utcHost (demoConfig false "(")) = false.
Proof.
  assert (H1 : RegExpCreate utcHost (cfg_excludePattern (demoConfig false "("))
               = None) by reflexivity.
  destruct (C7_invalid_pattern_is_never_matching
              demoRepo utcHost (demoConfig false "(") H1)
    as (_ & _ & _ & Hs & _ & Hrun).
  split; [exact Hs|].
  apply (Hrun "main" (demoClock - day 14) demoBranches).
  - reflexivity.
  - reflexivity.
  - intros st. reflexivity.
Defined.

Lemma alone_lists (octokit : Octokit) (host : Host) (cfg : Configuration)
    (d : string) (c : Z) (l : list Branch) :
  deletedBranches (alone octokit host cfg d c l)
  = deletedOf octokit host (withDefault (cfg_protectedBranches cfg) d)
      (cfg_excludePattern cfg) (cfg_dryRun cfg) (TimeValue c) l /\
  skippedBranches (alone octokit host cfg d c l)
  = skippedOf octokit host (withDefault (cfg_protectedBranches cfg) d)
      (cfg_excludePattern cfg) (cfg_dryRun cfg) (TimeValue c) l.
Proof. unfold alone. rewrite forOf_processBranch_eq. split; reflexivity. Qed.

(** A branch that ends up skipped leaves the deleted list to its neighbours
    and puts one entry between theirs. *)
Lemma skipped_in_the_middle (octokit : Octokit) (host : Host)
    (cfg : Configuration) (d : string) (c : Z) (pre post : list Branch)
    (b : Branch) (why : string) :
  verdict octokit host (withDefault (cfg_protectedBranches cfg) d)
    (cfg_excludePattern cfg) (cfg_dryRun cfg) (TimeValue c) (name b)
  = Skipped why ->
  deletedOf octokit host (withDefault (cfg_protectedBranches cfg) d)
    (cfg_excludePattern cfg) (cfg_dryRun cfg) (TimeValue c)
    (pre ++ b :: post)
  = (deletedBranches (alone octokit host cfg d c pre)
     ++ deletedBranches (alone octokit host cfg d c post))%list /\
  skippedOf octokit host (withDefault (cfg_protectedBranches cfg) d)
    (cfg_excludePattern cfg) (cfg_dryRun cfg) (TimeValue c)
    (pre ++ b :: post)
  = (skippedBranches (alone octokit host cfg d c pre)
     ++ {| branch := name b; reason := why |}
     :: skippedBranches (alone octokit host cfg d c post))%list.
Proof.
  intros Hv.
  destruct (alone_lists octokit host cfg d c pre) as (-> & ->).
  destruct (alone_lists octokit host cfg d c post) as (-> & ->).
  unfold deletedOf, skippedOf. rewrite !flat_map_app. simpl flat_map.
  rewrite Hv. split; reflexivity.
Qed.

(** C6. A candidate whose commit date cannot be fetched is skipped with
    reason [error_processing], and one whose deletion fails is skipped with
    reason [deletion_failed].  Either way the run does not abort, and the
    final lists are those of the candidates before it, then its own entry,
    then those of the candidates after it, where the lists of the candidates
    before and after are what the loop records when run on them alone. *)
Theorem C6_branch_failures_are_isolated :
  forall (octokit : Octokit) (host : Host) (cfg : Configuration)
         (d : string) (c : Z) (all pre post : list Branch) (b : Branch),
    repos_get octokit = Normal d ->
    cutoffDate host (cfg_daysOld cfg) = TimeValue c ->
    returns (getAllBranches octokit) all ->
    branchesToProcess all d = (pre ++ b :: post)%list ->
    aborted (main octokit host cfg) = false /\
    (In (ReposGetBranch (name b)) (effects (main octokit host cfg)) ->
     (exists e, repos_getBranch octokit (name b) = Throw e) ->
     deletedBranches (this (main octokit host cfg))
     = (deletedBranches (alone octokit host cfg d c pre)
        ++ deletedBranches (alone octokit host cfg d c post))%list /\
     skippedBranches (this (main octokit host cfg))
     = (skippedBranches (alone octokit host cfg d c pre)
        ++ {| branch := name b; reason := "error_processing" |}
        :: skippedBranches (alone octokit host cfg d c post))%list) /\
    (In (GitDeleteRef ("heads/" ++ name b)%string)
        (effects (main octokit host cfg)) ->
     (exists e, git_deleteRef octokit ("heads/" ++ name b)%string = Throw e) ->
     deletedBranches (this (main octokit host cfg))
     = (deletedBranches (alone octokit host cfg d c pre)
        ++ deletedBranches (alone octokit host cfg d c post))%list /\
     skippedBranches (this (main octokit host cfg))
     = (skippedBranches (alone octokit host cfg d c pre)
        ++ {| branch := name b; reason := "deletion_failed" |}
        :: skippedBranches (alone octokit host cfg d c post))%list).
Proof.
  intros octokit host cfg d c all pre post b Hd Hc Hall Htodo.
  destruct (main_completed _ _ cfg _ _ _ Hd Hc Hall) as (es & Hl & Hes & E).
  split; [rewrite E; now apply aborted_completed|].
  split.
  - intros Hcall (e & He).
    apply branch_call_in_main in Hcall; [|reflexivity].
    destruct Hcall as (d' & c' & all' & es' & x & Hd' & Hc' & _ & _ & _ & Hr).
    assert (d' = d) by congruence. assert (c' = c) by congruence. subst d' c'.
    apply In_requests in Hr as (Hp & Hx & [[= <-]|(Hr & _)]); [|discriminate].
    rewrite E. simpl. rewrite Htodo. apply skipped_in_the_middle.
    unfold verdict. now rewrite Hp, Hx, He.
  - intros Hcall (e & He).
    apply branch_call_in_main in Hcall; [|reflexivity].
    destruct Hcall as (d' & c' & all' & es' & x & Hd' & Hc' & _ & _ & _ & Hr).
    assert (d' = d) by congruence. assert (c' = c) by congruence. subst d' c'.
    apply In_requests in Hr as (Hp & Hx & [Hr|(Hr & Hdry & t & Ht & Hlt)]);
      [discriminate|].
    assert (x = name b) by (apply heads_inj; congruence). subst x.
    rewrite E. simpl. rewrite Htodo. apply skipped_in_the_middle.
    unfold verdict. now rewrite Hp, Hx, Ht, Hlt, Hdry, He.
Qed.

Lemma C6_witness :
  skippedBranches (this (main demoRepo utcHost (demoConfig false "")))
  = [ {| branch := "release/1.0"; reason := "too_recent" |};
      {| branch := "develop"; reason := "protected" |};
      {| branch := "gone"; reason := "error_processing" |};
      {| branch := "locked"; reason := "deletion_failed" |};
      {| branch := "feature/b"; reason := "too_recent" |} ].
Proof.
  assert (H1 : repos_get demoRepo = Normal "main") by reflexivity.
  assert (H2 : cutoffDate utcHost (cfg_daysOld (demoConfig false ""))
               = TimeValue (demoClock - day 14)) by reflexivity.
  assert (H3 : returns (getAllBranches demoRepo) demoBranches)
    by (intros st; reflexivity).
  assert (H4 : branchesToProcess demoBranches "main"
               = ([ {| name := "feature/a" |}; {| name := "release/1.0" |};
                    {| name := "develop" |} ]
                  ++ {| name := "gone" |}
                  :: [ {| name := "locked" |}; {| name := "feature/b" |} ])%list)
    by reflexivity.
  destruct (C6_branch_failures_are_isolated
              demoRepo utcHost (demoConfig false "") "main"
              (demoClock - day 14) demoBranches _ _ _ H1 H2 H3 H4)
    as (_ & Hfetch & _).
  assert (H5 : In (ReposGetBranch "gone")
                  (effects (main demoRepo utcHost (demoConfig false ""))))
    by pick_member.
  assert (H6 : exists e, repos_getBranch demoRepo "gone" = Throw e)
    by (exists "Not Found"; reflexivity).
  destruct (Hfetch H5 H6) as (_ & Hs).
  rewrite Hs. reflexivity.
Defined.

(** ** The report *)

(** When there is something to process, a run that does not abort sets each
    of the two outputs once, after every other call, to the final lists. *)
Lemma report_emitted_once (octokit : Octokit) (host : Host)
    (cfg : Configuration) (d : string) (all : list Branch) :
  aborted (main octokit host cfg) = false ->
  repos_get octokit = Normal d ->
  returns (getAllBranches octokit) all ->
  branchesToProcess all d <> [] ->
  exists before,
    existsb is_SetOutput before = false /\
    effects (main octokit host cfg) =
      (before
       ++ [SetOutput "deleted-branches"
             (JsonNames (deletedBranches (this (main octokit host cfg))));
           SetOutput "skipped-branches"
             (JsonSkipped (skippedBranches (this (main octokit host cfg))))])%list.
Proof.
  intros Hab Hd Hall Hne.
  destruct (main_run _ _ _ _ _ Hab Hd Hall) as (c & es & Hc & Hl & Hes & E).
  rewrite E. unfold completed. cbn [this effects deletedBranches skippedBranches].
  destruct (Nat.eqb (List.length (branchesToProcess all d)) 0) eqn:Hlen.
  { apply Nat.eqb_eq, length_zero_iff_nil in Hlen. contradiction. }
  exists (ReposGet :: es
          ++ requestsOf octokit host (withDefault (cfg_protectedBranches cfg) d)
               (cfg_excludePattern cfg) (cfg_dryRun cfg) (TimeValue c)
               (branchesToProcess all d))%list.
  split; [|simpl; now rewrite <- app_assoc].
  destruct (existsb is_SetOutput _) eqn:Ex; [|reflexivity].
  apply existsb_exists in Ex as (e & He & Ho).
  destruct He as [<-|He]; [discriminate|].
  apply in_app_iff in He as [He|He].
  - destruct (listing_calls _ _ Hes He) as (p & ->). discriminate.
  - apply In_requestsOf in He as (x & _ & He).
    apply In_requests in He as (_ & _ & [->|(-> & _)]); discriminate.
Qed.

(** When the listing holds nothing but the default branch, the run returns
    on line 171 and neither output is set. *)
Lemma no_report_without_candidates (octokit : Octokit) (host : Host)
    (cfg : Configuration) (d : string) (all : list Branch) :
  aborted (main octokit host cfg) = false ->
  repos_get octokit = Normal d ->
  returns (getAllBranches octokit) all ->
  branchesToProcess all d = [] ->
  existsb is_SetOutput (effects (main octokit host cfg)) = false.
Proof.
  intros Hab Hd Hall Hnone.
  destruct (main_run _ _ _ _ _ Hab Hd Hall) as (c & es & Hc & Hl & Hes & E).
  rewrite E. unfold completed. cbn [effects]. rewrite Hnone. simpl.
  destruct (existsb is_SetOutput es) eqn:Ex; [|reflexivity].
  apply existsb_exists in Ex as (e & He & Ho).
  destruct (listing_calls _ _ Hes He) as (p & ->). discriminate.
Qed.

(** C10, at a repository that has its default branch only: the run does not
    abort, there is no branch to process, and the calls of the run are the
    two that read the repository; [core.setOutput] is not among them, so no
    report is emitted. *)
Theorem C10_no_report_when_nothing_to_process :
  aborted (main bareRepo utcHost (demoConfig false "")) = false /\
  branchesToProcess [ {| name := "main" |} ] "main" = [] /\
  effects (main bareRepo utcHost (demoConfig false ""))
  = [ReposGet; ReposListBranches 1] /\
  filter is_SetOutput (effects (main bareRepo utcHost (demoConfig false "")))
  = [].
Proof. vm_compute. repeat split; reflexivity. Qed.

(** * Further properties of the action *)

(** ** The list of protected names *)

Example default_protected_names :
  protectedBranchesInput "" =
    ["main"; "master"; "develop"; "staging"; "production"] /\
  protectedBranchesInput " main , release/1.0,,  " = ["main"; "release/1.0"].
Proof. split; reflexivity. Qed.

Lemma split_not_nil (sep : ascii) (s : string) : split sep s <> [].
Proof.
  destruct s as [|c rest]; simpl; [discriminate|].
  destruct (Ascii.eqb c sep); [discriminate|].
  destruct (split sep rest); discriminate.
Qed.

Lemma split_app (sep : ascii) (s1 s2 : string) :
  split sep (s1 ++ String sep s2)%string
  = (split sep s1 ++ split sep s2)%list.
Proof.
  induction s1 as [|c s1 IH]; simpl.
  - now rewrite Ascii.eqb_refl.
  - destruct (Ascii.eqb c sep); [now rewrite IH|].
    rewrite IH. destruct (split sep s1) as [|p ps] eqn:E; [|reflexivity].
    now apply split_not_nil in E.
Qed.

(** A piece holds characters of the string, and never the separator. *)
Lemma split_pieces (sep : ascii) (s p : string) (c : ascii) :
  In p (split sep s) -> In c (list_ascii_of_string p) ->
  In c (list_ascii_of_string s) /\ c <> sep.
Proof.
  revert p. induction s as [|a s IH]; simpl; intros p Hp Hc.
  - destruct Hp as [<-|[]]. contradiction.
  - destruct (Ascii.eqb_spec a sep) as [->|Hne].
    + destruct Hp as [<-|Hp]; [contradiction|].
      destruct (IH p Hp Hc). auto.
    + destruct (split sep s) as [|q qs] eqn:E; simpl in Hp.
      * destruct Hp as [<-|[]]. simpl in Hc. destruct Hc as [<-|[]]. auto.
      * destruct Hp as [<-|Hp].
        -- simpl in Hc. destruct Hc as [<-|Hc]; [auto|].
           destruct (IH q (or_introl eq_refl) Hc). auto.
        -- destruct (IH p (or_intror Hp) Hc). auto.
Qed.

Lemma trimStart_chars (s : string) (c : ascii) :
  In c (list_ascii_of_string (trimStart s)) -> In c (list_ascii_of_string s).
Proof.
  induction s as [|a s IH]; simpl; [auto|].
  destruct (isWhiteSpace a); simpl; auto.
Qed.

Lemma trimEnd_chars (s : string) (c : ascii) :
  In c (list_ascii_of_string (trimEnd s)) -> In c (list_ascii_of_string s).
Proof.
  induction s as [|a s IH]; simpl; [auto|].
  destruct (trimEnd s) as [|k ks].
  - destruct (isWhiteSpace a); simpl; [contradiction|]. intros [<-|[]]. auto.
  - simpl. intros [<-|H]; auto.
Qed.

Lemma trimEnd_idempotent (s : string) : trimEnd (trimEnd s) = trimEnd s.
Proof.
  induction s as [|a s IH]; simpl; [reflexivity|].
  destruct (trimEnd s) as [|k ks] eqn:E.
  - destruct (isWhiteSpace a) eqn:W; simpl; [reflexivity|]. now rewrite W.
  - change (trimEnd (String a (String k ks))) with
      (match trimEnd (String k ks) with
       | EmptyString =>
           if isWhiteSpace a then EmptyString else String a EmptyString
       | kept => String a kept
       end).
    now rewrite IH.
Qed.

Lemma trimEnd_head (c : ascii) (r : string) :
  trimEnd (String c r) = EmptyString \/
  exists r', trimEnd (String c r) = String c r'.
Proof.
  simpl. destruct (trimEnd r).
  - destruct (isWhiteSpace c); [now left|right; now eexists].
  - right. now eexists.
Qed.

Lemma trimStart_head (s : string) :
  trimStart s = EmptyString \/
  exists c r, trimStart s = String c r /\ isWhiteSpace c = false.
Proof.
  induction s as [|a s IH]; simpl; [now left|].
  destruct (isWhiteSpace a) eqn:W; [exact IH|].
  right. now exists a, s.
Qed.

Lemma trim_idempotent (s : string) : trim (trim s) = trim s.
Proof.
  unfold trim. destruct (trimStart_head s) as [->|(c & r & -> & W)];
    [reflexivity|].
  destruct (trimEnd_head c r) as [->|(r' & E)]; [reflexivity|].
  rewrite E at 1. simpl trimStart. rewrite W, <- E. apply trimEnd_idempotent.
Qed.

Lemma trim_chars (s : string) (c : ascii) :
  In c (list_ascii_of_string (trim s)) -> In c (list_ascii_of_string s).
Proof. intros H. now apply trimStart_chars, trimEnd_chars. Qed.

Lemma hasComma_false (s : string) :
  hasComma s = false <-> ~ In ","%char (list_ascii_of_string s).
Proof.
  unfold hasComma. split.
  - intros H Hin. assert (existsb (Ascii.eqb ",") (list_ascii_of_string s) = true).
    { apply existsb_exists. exists ","%char. split; [exact Hin|reflexivity]. }
    congruence.
  - intros H. destruct (existsb _ _) eqn:E; [|reflexivity].
    apply existsb_exists in E as (c & Hc & E). apply Ascii.eqb_eq in E.
    subst c. contradiction.
Qed.

Lemma parsed_name_clean (input x : string) :
  In x (parseProtectedBranches input) ->
  x <> "" /\ hasComma x = false /\ trim x = x /\ cleanName x = true.
Proof.
  intros Hx. unfold parseProtectedBranches in Hx.
  apply filter_In in Hx as (Hx & Hne). apply in_map_iff in Hx as (p & <- & Hp).
  assert (H1 : trim p <> "")
    by (intros E; rewrite E in Hne; discriminate).
  assert (H2 : hasComma (trim p) = false).
  { apply hasComma_false. intros Hc. apply trim_chars in Hc.
    destruct (split_pieces _ _ _ _ Hp Hc) as (_ & Hsep). now apply Hsep. }
  assert (H3 : trim (trim p) = trim p) by apply trim_idempotent.
  repeat split; try assumption.
  unfold cleanName. rewrite H2, H3, String.eqb_refl.
  apply String.eqb_neq in H1. now rewrite H1.
Qed.

(** X1. Whatever the input, every name that [parseProtectedBranches] returns
    is non-empty, contains no comma and is unchanged by [trim]: it has no
    white space at either end. *)
Theorem X1_parsed_names_are_clean :
  forall (input : string) (x : string),
    In x (parseProtectedBranches input) ->
    x <> "" /\ hasComma x = false /\ trim x = x /\ cleanName x = true.
Proof.
  intros input x Hx. unfold parseProtectedBranches in Hx.
  apply filter_In in Hx as (Hx & Hne). apply in_map_iff in Hx as (p & <- & Hp).
  assert (H1 : trim p <> "")
    by (intros E; rewrite E in Hne; discriminate).
  assert (H2 : hasComma (trim p) = false).
  { apply hasComma_false. intros Hc. apply trim_chars in Hc.
    destruct (split_pieces _ _ _ _ Hp Hc) as (_ & Hsep). now apply Hsep. }
  assert (H3 : trim (trim p) = trim p) by apply trim_idempotent.
  repeat split; try assumption.
  unfold cleanName. rewrite H2, H3, String.eqb_refl.
  apply String.eqb_neq in H1. now rewrite H1.
Qed.

Lemma X1_witness :
  cleanName "release/1.0" = true.
Proof.
  apply (X1_parsed_names_are_clean " main , release/1.0,,  " "release/1.0").
  right. left. reflexivity.
Defined.

Lemma parse_app (s1 s2 : string) :
  parseProtectedBranches (s1 ++ "," ++ s2)%string
  = (parseProtectedBranches s1 ++ parseProtectedBranches s2)%list.
Proof.
  unfold parseProtectedBranches.
  change ("," ++ s2)%string with (String "," s2).
  now rewrite split_app, map_app, filter_app.
Qed.

(** X2. Parsing distributes over the comma: the names of [s1,s2] are the
    names of [s1] followed by the names of [s2]. *)
Theorem X2_parse_splits_at_commas :
  forall s1 s2 : string,
    parseProtectedBranches (s1 ++ "," ++ s2)%string
    = (parseProtectedBranches s1 ++ parseProtectedBranches s2)%list.
Proof.
  intros s1 s2. unfold parseProtectedBranches.
  change ("," ++ s2)%string with (String "," s2).
  now rewrite split_app, map_app, filter_app.
Qed.

Lemma split_no_sep (sep : ascii) (s : string) :
  ~ In sep (list_ascii_of_string s) -> split sep s = [s].
Proof.
  induction s as [|a s IH]; simpl; intros H; [reflexivity|].
  destruct (Ascii.eqb_spec a sep) as [->|_]; [elim H; now left|].
  rewrite IH; [reflexivity|]. intros Hin. apply H. now right.
Qed.

Lemma parse_clean_name (x : string) :
  cleanName x = true -> parseProtectedBranches x = [x].
Proof.
  unfold cleanName. intros H.
  apply andb_prop in H as (H & Ht). apply andb_prop in H as (Hne & Hc).
  apply String.eqb_eq in Ht. apply negb_true_iff in Hc.
  unfold parseProtectedBranches.
  rewrite split_no_sep by (now apply hasComma_false).
  simpl. rewrite Ht. now rewrite Hne.
Qed.

(** X3. Joining clean names with commas and parsing the result gives the
    names back, in order; in particular parsing, joining and parsing again
    changes nothing. *)
Theorem X3_parse_inverts_join :
  forall names : list string,
    forallb cleanName names = true ->
    parseProtectedBranches (String.concat "," names) = names /\
    forall input : string,
      parseProtectedBranches
        (String.concat "," (parseProtectedBranches input))
      = parseProtectedBranches input.
Proof.
  assert (Hjoin : forall names, forallb cleanName names = true ->
                    parseProtectedBranches (String.concat "," names) = names).
  { induction names as [|x names IH]; intros H; [reflexivity|].
    simpl in H. apply andb_prop in H as (Hx & H).
    destruct names as [|y names]; [now apply parse_clean_name|].
    change (String.concat "," (x :: y :: names))
      with (x ++ "," ++ String.concat "," (y :: names))%string.
    rewrite parse_app, (parse_clean_name _ Hx), (IH H).
    reflexivity. }
  intros names H. split; [now apply Hjoin|].
  intros input. apply Hjoin. apply forallb_forall. intros x Hx.
  now apply parsed_name_clean in Hx.
Qed.

Lemma X3_witness :
  parseProtectedBranches "main,release/1.0,hot fix" =
    ["main"; "release/1.0"; "hot fix"].
Proof.
  apply (X3_parse_inverts_join ["main"; "release/1.0"; "hot fix"]).
  reflexivity.
Defined.





(** ** Pagination of the listing *)

Lemma loop_over_full_pages (fulls : list (list Branch)) :
  forall (tail : list (Completion (list Branch))) (page : nat)
         (branches : list Branch) (st : State),
    forallb fullPage fulls = true ->
    getAllBranches_loop (map Normal fulls ++ tail) page branches st
    = getAllBranches_loop tail (page + List.length fulls)
        (branches ++ List.concat fulls)
        {| this := this st;
           effects := (effects st
                       ++ map ReposListBranches
                            (seq page (List.length fulls)))%list |}.
Proof.
  induction fulls as [|data fulls IH]; intros tail page branches [o es] Hfull.
  - simpl. now rewrite Nat.add_0_r, !app_nil_r.
  - simpl in Hfull. apply andb_prop in Hfull as (Hdata & Hfull).
    unfold fullPage in Hdata. apply negb_true_iff in Hdata.
    cbn [map app getAllBranches_loop]. unfold bind at 1, perform at 1.
    rewrite Hdata.
    assert (Hne : Nat.eqb (List.length data) 0 = false).
    { apply Nat.eqb_neq. apply Nat.ltb_ge in Hdata. unfold perPage in Hdata. lia. }
    rewrite Hne, IH by exact Hfull. cbn [this effects List.length List.concat seq map].
    now rewrite <- !app_assoc, Nat.add_succ_r.
Qed.

Lemma seq_snoc (start len : nat) :
  seq start (S len) = (seq start len ++ [start + len]%nat)%list.
Proof. now rewrite seq_S. Qed.

(** X5. When the branch source serves full pages followed by a page that is
    not full (or by nothing more), [getAllBranches] returns the branches of
    all these pages in order, after asking for the pages 1, 2, ... up to the
    one that was not full, and it asks for no page after that one. *)
Theorem X5_listing_concatenates_pages :
  forall (octokit : Octokit) (fulls : list (list Branch))
         (short : list Branch) (rest : list (Completion (list Branch))),
    forallb fullPage fulls = true ->
    fullPage short = false ->
    repos_listBranches octokit = (map Normal fulls ++ Normal short :: rest)%list
    \/ (repos_listBranches octokit = map Normal fulls /\ short = []) ->
    forall st : State,
      getAllBranches octokit st
      = (Normal (List.concat fulls ++ short)%list,
         {| this := this st;
            effects :=
              (effects st
               ++ map ReposListBranches
                    (seq 1 (S (List.length fulls))))%list |}).
Proof.
  intros octokit fulls short rest Hfull Hshort Hpages st.
  unfold getAllBranches, tryCatch. rewrite seq_snoc, map_app, app_assoc.
  destruct Hpages as [->|(-> & ->)].
  - rewrite (loop_over_full_pages fulls _ 1 [] st Hfull).
    cbn [getAllBranches_loop]. unfold bind, perform, ret. simpl app at 1.
    unfold fullPage in Hshort. apply negb_false_iff in Hshort.
    rewrite Hshort. cbn [this effects].
    destruct short as [|b short]; simpl; [now rewrite app_nil_r|reflexivity].
  - rewrite <- (app_nil_r (map Normal fulls)).
    rewrite (loop_over_full_pages fulls [] 1 [] st Hfull).
    simpl. now rewrite app_nil_r.
Qed.

Lemma X5_witness :
  fst (getAllBranches twoPageRepo (start (demoConfig false "")))
  = Normal (map numbered (seq 1 100) ++ [ {| name := "main" |} ])%list /\
  effects (snd (getAllBranches twoPageRepo (start (demoConfig false ""))))
  = [ReposListBranches 1; ReposListBranches 2].
Proof.
  rewrite (X5_listing_concatenates_pages twoPageRepo
             [map numbered (seq 1 100)] [ {| name := "main" |} ] []).
  - split; reflexivity.
  - reflexivity.
  - reflexivity.
  - left. reflexivity.
Defined.

Lemma listing_fails_after_full_pages (octokit : Octokit)
    (fulls : list (list Branch)) (e : string)
    (rest : list (Completion (list Branch))) :
  forallb fullPage fulls = true ->
  repos_listBranches octokit = (map Normal fulls ++ Throw e :: rest)%list ->
  lists octokit (Throw ("Failed to fetch branches: " ++ e)%string)
    (map ReposListBranches (seq 1 (S (List.length fulls)))).
Proof.
  intros Hfull Hpages st. unfold getAllBranches, tryCatch.
  rewrite Hpages, (loop_over_full_pages fulls _ 1 [] st Hfull).
  cbn [getAllBranches_loop]. unfold bind, perform, throw. cbn [this effects].
  now rewrite seq_snoc, map_app, app_assoc.
Qed.

(** ** Runs that abort *)

(** X6. When a page of the listing cannot be read, after any number of full
    pages, the run fails with the message of that page wrapped twice; its
    calls are [repos.get], the pages up to the one that failed and
    [core.setFailed], and nothing is deleted, skipped or reported. *)
Theorem X6_unreadable_page_aborts_the_run :
  forall (octokit : Octokit) (host : Host) (cfg : Configuration)
         (d : string) (c : Z) (fulls : list (list Branch)) (e : string)
         (rest : list (Completion (list Branch))),
    repos_get octokit = Normal d ->
    cutoffDate host (cfg_daysOld cfg) = TimeValue c ->
    forallb fullPage fulls = true ->
    repos_listBranches octokit = (map Normal fulls ++ Throw e :: rest)%list ->
    effects (main octokit host cfg)
    = (ReposGet
       :: map ReposListBranches (seq 1 (S (List.length fulls)))
       ++ [SetFailed ("Branch cleanup failed: Failed to fetch branches: "
                      ++ e)%string])%list /\
    deletedBranches (this (main octokit host cfg)) = [] /\
    skippedBranches (this (main octokit host cfg)) = [].
Proof.
  intros octokit host cfg d c fulls e rest Hd Hc Hfull Hpages.
  pose proof (listing_fails_after_full_pages _ _ _ _ Hfull Hpages) as Hl.
  destruct (main_cases octokit host cfg)
    as [(e0 & E0 & _)|[(d' & _ & E0 & _)
       |[(d' & c' & e' & es & _ & _ & Hl' & _ & T & E)
        |(d' & c' & all & es & _ & _ & Hl' & _)]]];
    try congruence;
    destruct (lists_unique _ _ _ _ _ Hl Hl') as (Er & Ees); try discriminate.
  injection Er as <-. subst es. rewrite E, T. repeat split; reflexivity.
Qed.

Lemma X6_witness :
  effects (main brokenListingRepo utcHost (demoConfig false ""))
  = [ReposGet; ReposListBranches 1; ReposListBranches 2;
     SetFailed "Branch cleanup failed: Failed to fetch branches: Bad gateway"].
Proof.
  apply (X6_unreadable_page_aborts_the_run
           brokenListingRepo utcHost (demoConfig false "") "main"
           (demoClock - day 14) [map numbered (seq 1 100)] "Bad gateway" []);
    reflexivity.
Defined.

Lemma listing_existsb (f : Effect -> bool) (es : list Effect) :
  (forall p, f (ReposListBranches p) = false) ->
  forallb is_listing es = true -> existsb f es = false.
Proof.
  intros Hf Hes. destruct (existsb f es) eqn:E; [|reflexivity].
  apply existsb_exists in E as (e & He & Hfe).
  destruct (listing_calls _ _ Hes He) as (p & ->). now rewrite Hf in Hfe.
Qed.

(** X7. A run that calls [core.setFailed] has touched no branch: it has
    requested no commit date and no deletion, has set no output, both result
    lists are empty, and [core.setFailed] is its last call and is called
    once.  Fatal errors can only happen before the first branch is looked
    at. *)
Theorem X7_aborted_run_touches_no_branch :
  forall (octokit : Octokit) (host : Host) (cfg : Configuration),
    aborted (main octokit host cfg) = true ->
    existsb is_branch_call (effects (main octokit host cfg)) = false /\
    existsb is_SetOutput (effects (main octokit host cfg)) = false /\
    deletedBranches (this (main octokit host cfg)) = [] /\
    skippedBranches (this (main octokit host cfg)) = [] /\
    exists before message,
      effects (main octokit host cfg) = (before ++ [SetFailed message])%list /\
      existsb is_SetFailed before = false.
Proof.
  intros octokit host cfg Hab.
  destruct (main_cases octokit host cfg)
    as [(e0 & _ & T & E)|[(d & _ & _ & T & E)
       |[(d & c & e0 & es & _ & _ & _ & Hes & T & E)
        |(d & c & all & es & _ & _ & _ & Hes & E)]]].
  - rewrite E, T. repeat split; try reflexivity.
    eexists [ReposGet], _. split; reflexivity.
  - rewrite E, T. repeat split; try reflexivity.
    eexists [ReposGet], _. split; reflexivity.
  - rewrite E, T. simpl. rewrite !existsb_app. simpl.
    rewrite (listing_existsb is_branch_call es), (listing_existsb is_SetOutput es)
      by (auto || reflexivity).
    repeat split; try reflexivity.
    exists (ReposGet :: es), ("Branch cleanup failed: " ++ e0)%string.
    split; [reflexivity|]. simpl. now apply listing_existsb.
  - rewrite E, aborted_completed in Hab by exact Hes. discriminate.
Qed.

Lemma X7_witness :
  existsb is_branch_call
    (effects (main brokenListingRepo utcHost (demoConfig false ""))) = false /\
  deletedBranches (this (main brokenListingRepo utcHost (demoConfig false "")))
  = [].
Proof.
  assert (H1 : aborted (main brokenListingRepo utcHost (demoConfig false ""))
               = true) by (vm_compute; reflexivity).
  destruct (X7_aborted_run_touches_no_branch
              brokenListingRepo utcHost (demoConfig false "") H1)
    as (Hc & _ & Hd & _).
  split; [exact Hc|exact Hd].
Defined.

(** X8. When [days-old] is not a number, or moves the cutoff out of the
    range of dates, the cutoff is the invalid date, formatting it for the log
    throws, and the run fails right after [repos.get]: the branches are not
    even listed. *)
Theorem X8_invalid_threshold_aborts_before_listing :
  forall (octokit : Octokit) (host : Host) (cfg : Configuration) (d : string),
    repos_get octokit = Normal d ->
    cfg_daysOld cfg = NaN \/ cutoffDate host (cfg_daysOld cfg) = InvalidDate ->
    effects (main octokit host cfg)
    = [ReposGet; SetFailed "Branch cleanup failed: Invalid time value"] /\
    deletedBranches (this (main octokit host cfg)) = [] /\
    skippedBranches (this (main octokit host cfg)) = [].
Proof.
  intros octokit host cfg d Hd Hbad.
  assert (Hc : cutoffDate host (cfg_daysOld cfg) = InvalidDate)
    by (destruct Hbad as [->|H]; [reflexivity|exact H]).
  destruct (main_cases octokit host cfg)
    as [(e0 & E0 & _)|[(d' & _ & _ & T & E)
       |[(d' & c' & e' & es & _ & Hc' & _)
        |(d' & c' & all & es & _ & Hc' & _)]]];
    try congruence.
  rewrite E, T. repeat split; reflexivity.
Qed.

Lemma X8_witness :
  effects (main demoRepo utcHost (withDaysOld (demoConfig false "") NaN))
  = [ReposGet; SetFailed "Branch cleanup failed: Invalid time value"] /\
  effects (main demoRepo utcHost
             (withDaysOld (demoConfig false "") (Int 200000000)))
  = [ReposGet; SetFailed "Branch cleanup failed: Invalid time value"].
Proof.
  split.
  - apply (X8_invalid_threshold_aborts_before_listing
             demoRepo utcHost (withDaysOld (demoConfig false "") NaN) "main").
    + reflexivity.
    + left. reflexivity.
  - apply (X8_invalid_threshold_aborts_before_listing
             demoRepo utcHost
             (withDaysOld (demoConfig false "") (Int 200000000)) "main").
    + reflexivity.
    + right. reflexivity.
Defined.

(** ** What one pass can do *)

Lemma matchesExcludePattern_eq (host : Host) (b : string) (st : State) :
  matchesExcludePattern host b st
  = (Normal (excluded host (excludePattern (this st)) b), st).
Proof.
  unfold matchesExcludePattern, excluded, bind, gets, ret.
  destruct (String.eqb (excludePattern (this st)) ""); [reflexivity|].
  now destruct (RegExpCreate host (excludePattern (this st))).
Qed.

Lemma excluded_true (host : Host) (pattern b : string) :
  excluded host pattern b = true <->
  pattern <> "" /\
  exists regex, RegExpCreate host pattern = Some regex /\ regex b = true.
Proof.
  unfold excluded. destruct (String.eqb_spec pattern "") as [->|Hne].
  - split; [discriminate|]. intros (H & _). now elim H.
  - destruct (RegExpCreate host pattern) as [regex|].
    + split.
      * intros H. split; [exact Hne|]. now exists regex.
      * intros (_ & regex' & [= <-] & H). exact H.
    + split; [discriminate|]. intros (_ & regex' & [=] & _).
Qed.

(** The seven ways through the loop body, with the entry and the calls of
    each. *)
Lemma verdict_cases (octokit : Octokit) (host : Host)
    (protected : list string) (pattern : string) (dry : bool) (c : Z)
    (b : string) :
  let v := verdict octokit host protected pattern dry (TimeValue c) b in
  let r := requests octokit host protected pattern dry (TimeValue c) b in
  let ref := ("heads/" ++ b)%string in
  (includes protected b = true /\ v = Skipped "protected" /\ r = []) \/
  (includes protected b = false /\ excluded host pattern b = true /\
   v = Skipped "matches_exclude_pattern" /\ r = []) \/
  (includes protected b = false /\ excluded host pattern b = false /\
   ((exists e, repos_getBranch octokit b = Throw e) \/
    repos_getBranch octokit b = Normal InvalidDate) /\
   v = Skipped "error_processing" /\ r = [ReposGetBranch b]) \/
  (includes protected b = false /\ excluded host pattern b = false /\
   (exists t, repos_getBranch octokit b = Normal (TimeValue t) /\ c <= t) /\
   v = Skipped "too_recent" /\ r = [ReposGetBranch b]) \/
  (includes protected b = false /\ excluded host pattern b = false /\
   (exists t, repos_getBranch octokit b = Normal (TimeValue t) /\ t < c) /\
   dry = true /\ v = Deleted /\ r = [ReposGetBranch b]) \/
  (includes protected b = false /\ excluded host pattern b = false /\
   (exists t, repos_getBranch octokit b = Normal (TimeValue t) /\ t < c) /\
   dry = false /\ git_deleteRef octokit ref = Normal tt /\
   v = Deleted /\ r = [ReposGetBranch b; GitDeleteRef ref]) \/
  (includes protected b = false /\ excluded host pattern b = false /\
   (exists t, repos_getBranch octokit b = Normal (TimeValue t) /\ t < c) /\
   dry = false /\ (exists e, git_deleteRef octokit ref = Throw e) /\
   v = Skipped "deletion_failed" /\
   r = [ReposGetBranch b; GitDeleteRef ref]).
Proof.
  unfold verdict, requests.
  destruct (includes protected b); [now left|right].
  destruct (excluded host pattern b); [now left|right].
  destruct (repos_getBranch octokit b) as [[t|]|e].
  - right. unfold date_lt. destruct (Z.ltb_spec t c).
    + right. destruct dry.
      * left. repeat split; eauto.
      * right. destruct (git_deleteRef octokit _) as [[]|e].
        -- left. repeat split; eauto.
        -- right. repeat split; eauto.
    + left. repeat split; eauto.
  - left. repeat split; auto.
  - left. repeat split; eauto.
Qed.

(** A run either aborts, having recorded and touched nothing, or completes. *)
Lemma main_view (octokit : Octokit) (host : Host) (cfg : Configuration) :
  (aborted (main octokit host cfg) = true /\
   deletedBranches (this (main octokit host cfg)) = [] /\
   skippedBranches (this (main octokit host cfg)) = [] /\
   existsb is_branch_call (effects (main octokit host cfg)) = false)
  \/
  (exists d c all es,
     repos_get octokit = Normal d /\
     cutoffDate host (cfg_daysOld cfg) = TimeValue c /\
     returns (getAllBranches octokit) all /\
     forallb is_listing es = true /\
     main octokit host cfg = completed octokit host cfg d c all es).
Proof.
  destruct (main_cases octokit host cfg)
    as [(e0 & _ & T & E)|[(d & _ & _ & T & E)
       |[(d & c & e0 & es & _ & _ & _ & Hes & T & E)
        |(d & c & all & es & Hd & Hc & Hl & Hes & E)]]].
  - left. unfold aborted. rewrite E, T. repeat split; reflexivity.
  - left. unfold aborted. rewrite E, T. repeat split; reflexivity.
  - left. unfold aborted. rewrite E, T. simpl. rewrite !existsb_app. simpl.
    rewrite orb_true_r, (listing_existsb is_branch_call es) by (auto || reflexivity).
    repeat split; reflexivity.
  - right. exists d, c, all, es. repeat split; try assumption.
    intros st. now rewrite Hl.
Qed.

Lemma no_branch_call (calls : list Effect) (e : Effect) :
  existsb is_branch_call calls = false -> is_branch_call e = true ->
  ~ In e calls.
Proof.
  intros H He Hin.
  assert (existsb is_branch_call calls = true)
    by (apply existsb_exists; now exists e).
  congruence.
Qed.

(** ** What is deleted, and what is not *)

(** X9. The action asks for the deletion of a reference only if it is
    [heads/b] for a listed branch [b] other than the default branch, that is
    not in the protected list, that the exclude pattern does not match,
    whose commit date was fetched and is a valid date strictly before the
    cutoff, and only in a live run. *)
Theorem X9_deletion_requires_every_check :
  forall (octokit : Octokit) (host : Host) (cfg : Configuration)
         (ref : string),
    In (GitDeleteRef ref) (effects (main octokit host cfg)) ->
    exists d c all b t,
      repos_get octokit = Normal d /\
      cutoffDate host (cfg_daysOld cfg) = TimeValue c /\
      returns (getAllBranches octokit) all /\
      ref = ("heads/" ++ b)%string /\
      In b (map name all) /\ b <> d /\
      ~ In b (protectedBranches (this (main octokit host cfg))) /\
      matchesExcludePattern host b (main octokit host cfg)
      = (Normal false, main octokit host cfg) /\
      In (ReposGetBranch b) (effects (main octokit host cfg)) /\
      repos_getBranch octokit b = Normal (TimeValue t) /\
      t < c /\
      cfg_dryRun cfg = false.
Proof.
  intros octokit host cfg ref Hin.
  pose proof Hin as Hcall. apply branch_call_in_main in Hcall; [|reflexivity].
  destruct Hcall as (d & c & all & es & b & Hd & Hc & Hl & E & Hb & Hr).
  exists d, c, all, b.
  pose proof (requests_in_completed octokit host cfg d c all es b
                (ReposGetBranch b) Hb) as Hfetch.
  destruct (verdict_cases octokit host
              (withDefault (cfg_protectedBranches cfg) d)
              (cfg_excludePattern cfg) (cfg_dryRun cfg) c b)
    as [(_ & _ & R)|[(_ & _ & _ & R)|[(_ & _ & _ & _ & R)|[(_ & _ & _ & _ & R)
       |[(_ & _ & _ & _ & _ & R)
        |[(Hp & Hx & (t & Ht & Hlt) & Hdry & _ & _ & R)
         |(Hp & Hx & (t & Ht & Hlt) & Hdry & _ & _ & R)]]]]]];
    rewrite R in Hr, Hfetch; simpl in Hr;
    try (destruct Hr as [Hr|Hr]; [discriminate|]);
    try contradiction;
    (destruct Hr as [Hr|[]]; injection Hr as <-);
    exists t; rewrite E;
    (split; [exact Hd|]); (split; [exact Hc|]);
    (split; [intros st; now rewrite Hl|]); (split; [reflexivity|]);
    (split; [ unfold branchesToProcess in Hb;
              apply in_map_iff in Hb as (br & <- & Hbr);
              apply filter_In in Hbr as (Hbr & _); now apply in_map |]);
    (split; [ intros ->; exact (default_not_candidate _ _ Hb) |]);
    (split; [ simpl; now apply includes_not_In |]);
    (split; [ rewrite matchesExcludePattern_eq; simpl; now rewrite Hx |]);
    (split; [ rewrite <- E in *; apply Hfetch; now left |]);
    auto.
Qed.

Lemma X9_witness :
  exists b, "heads/feature/a" = ("heads/" ++ b)%string /\ b <> "main".
Proof.
  assert (H1 : In (GitDeleteRef "heads/feature/a")
                  (effects (main demoRepo utcHost (demoConfig false ""))))
    by pick_member.
  destruct (X9_deletion_requires_every_check
              demoRepo utcHost (demoConfig false "") "heads/feature/a" H1)
    as (d & c & all & b & t & Hd & _ & _ & Href & _ & Hne & _).
  exists b. split; [exact Href|].
  simpl in Hd. injection Hd as <-. exact Hne.
Defined.

(** ** The order of the calls *)

Lemma follow_no_deletion (calls : list Effect) :
  (forall ref, ~ In (GitDeleteRef ref) calls) ->
  deletions_follow_fetches calls.
Proof.
  intros H before ref after E. exfalso. apply (H ref). rewrite E.
  apply in_app_iff. right. now left.
Qed.

Lemma follow_app (A B : list Effect) :
  deletions_follow_fetches A -> deletions_follow_fetches B ->
  (forall ref l, B <> GitDeleteRef ref :: l) ->
  deletions_follow_fetches (A ++ B).
Proof.
  intros HA HB Hhead before ref after E.
  apply app_eq_app in E as (l & [(EA & EB)|(Eb & EB)]).
  - destruct l as [|e l].
    + simpl in EB. symmetry in EB. now apply Hhead in EB.
    + simpl in EB. injection EB as <- ->. exact (HA _ _ _ EA).
  - destruct (HB _ _ _ EB) as (earlier & b & -> & ->).
    exists (A ++ earlier)%list, b. split; [reflexivity|].
    now rewrite Eb, app_assoc.
Qed.

Lemma head_app (A B : list Effect) :
  (forall ref l, A <> GitDeleteRef ref :: l) ->
  (forall ref l, B <> GitDeleteRef ref :: l) ->
  forall ref l, (A ++ B)%list <> GitDeleteRef ref :: l.
Proof.
  intros HA HB ref l. destruct A as [|a A]; [apply HB|].
  simpl. intros [= -> _]. exact (HA ref A eq_refl).
Qed.

Lemma follow_requests (octokit : Octokit) (host : Host)
    (protected : list string) (pattern : string) (dry : bool) (c : Z)
    (b : string) :
  deletions_follow_fetches
    (requests octokit host protected pattern dry (TimeValue c) b) /\
  forall ref l,
    requests octokit host protected pattern dry (TimeValue c) b
    <> GitDeleteRef ref :: l.
Proof.
  assert (Hpair : deletions_follow_fetches
                    [ReposGetBranch b; GitDeleteRef ("heads/" ++ b)%string]).
  { intros before ref after E.
    destruct before as [|x [|y before]]; simpl in E.
    - discriminate.
    - injection E as <- <- _. now exists [], b.
    - injection E as _ _ E. destruct before; discriminate. }
  destruct (verdict_cases octokit host protected pattern dry c b)
    as [(_ & _ & R)|[(_ & _ & _ & R)|[(_ & _ & _ & _ & R)|[(_ & _ & _ & _ & R)
       |[(_ & _ & _ & _ & _ & R)|[(_ & _ & _ & _ & _ & _ & R)
        |(_ & _ & _ & _ & _ & _ & R)]]]]]];
    rewrite R; (split; [|discriminate]); try exact Hpair;
    apply follow_no_deletion; intros ref H; simpl in H; intuition discriminate.
Qed.

Lemma follow_requestsOf (octokit : Octokit) (host : Host)
    (protected : list string) (pattern : string) (dry : bool) (c : Z)
    (l : list Branch) :
  deletions_follow_fetches
    (requestsOf octokit host protected pattern dry (TimeValue c) l) /\
  forall ref l',
    requestsOf octokit host protected pattern dry (TimeValue c) l
    <> GitDeleteRef ref :: l'.
Proof.
  induction l as [|b l (IH & IHhead)].
  - split; [|discriminate]. apply follow_no_deletion. intros ref [].
  - unfold requestsOf in *. simpl flat_map.
    destruct (follow_requests octokit host protected pattern dry c (name b))
      as (Hb & Hbhead).
    split; [now apply follow_app|now apply head_app].
Qed.

(** X10. In the calls of any run, every deletion of a reference is the call
    right after the fetch of the commit date of that same branch: a branch
    is never deleted on the strength of a date fetched earlier, or of
    another branch's date. *)
Theorem X10_deletion_comes_right_after_its_fetch :
  forall (octokit : Octokit) (host : Host) (cfg : Configuration),
    deletions_follow_fetches (effects (main octokit host cfg)).
Proof.
  intros octokit host cfg.
  destruct (main_view octokit host cfg)
    as [(_ & _ & _ & Hnone)|(d & c & all & es & _ & _ & _ & Hes & E)].
  - apply follow_no_deletion. intros ref.
    now apply (no_branch_call _ _ Hnone).
  - rewrite E. unfold completed. cbn [effects].
    assert (Hpre : deletions_follow_fetches (ReposGet :: es)).
    { apply follow_no_deletion. intros ref [H|H]; [discriminate|].
      destruct (listing_calls _ _ Hes H) as (p & [=]). }
    destruct (Nat.eqb (List.length (branchesToProcess all d)) 0);
      [exact Hpre|].
    destruct (follow_requestsOf octokit host
                (withDefault (cfg_protectedBranches cfg) d)
                (cfg_excludePattern cfg) (cfg_dryRun cfg) c
                (branchesToProcess all d)) as (HR & HRhead).
    apply (follow_app (ReposGet :: es) (_ ++ _)); [exact Hpre| |].
    + apply follow_app; [exact HR| |discriminate].
      apply follow_no_deletion. intros ref [H|[H|[]]]; discriminate.
    + apply head_app; [exact HRhead|discriminate].
Qed.

Lemma X10_witness :
  exists earlier b,
    "heads/feature/a" = ("heads/" ++ b)%string /\
    [ReposGet; ReposListBranches 1; ReposGetBranch "feature/a"]
    = (earlier ++ [ReposGetBranch b])%list.
Proof.
  apply (X10_deletion_comes_right_after_its_fetch
           demoRepo utcHost (demoConfig false "")
           [ReposGet; ReposListBranches 1; ReposGetBranch "feature/a"]
           "heads/feature/a"
           (skipn 4 (effects (main demoRepo utcHost (demoConfig false ""))))).
  vm_compute. reflexivity.
Defined.

(** ** The shape of the report *)

Lemma lists_as_filters (octokit : Octokit) (host : Host)
    (protected : list string) (pattern : string) (dry : bool)
    (cutoff : JSDate) (l : list Branch) :
  let keep := fun x =>
    match verdict octokit host protected pattern dry cutoff x with
    | Deleted => true
    | Skipped _ => false
    end in
  deletedOf octokit host protected pattern dry cutoff l
  = filter keep (map name l) /\
  map branch (skippedOf octokit host protected pattern dry cutoff l)
  = filter (fun x => negb (keep x)) (map name l).
Proof.
  intros keep. unfold deletedOf, skippedOf.
  induction l as [|b l (IHd & IHs)]; [split; reflexivity|].
  simpl. rewrite map_app, IHd, IHs. unfold keep.
  destruct (verdict octokit host protected pattern dry cutoff (name b));
    simpl; split; reflexivity.
Qed.

(** X11. In a run that does not abort, the deleted list and the names of
    the skipped list are the branches to process split in two by a test on
    the name: each list keeps the order of the listing, and together they
    are the whole listing without the default branch, names listed twice
    included. *)
Theorem X11_report_keeps_listing_order :
  forall (octokit : Octokit) (host : Host) (cfg : Configuration)
         (d : string) (all : list Branch),
    aborted (main octokit host cfg) = false ->
    repos_get octokit = Normal d ->
    returns (getAllBranches octokit) all ->
    exists keep : string -> bool,
      deletedBranches (this (main octokit host cfg))
      = filter keep (map name (branchesToProcess all d)) /\
      map branch (skippedBranches (this (main octokit host cfg)))
      = filter (fun x => negb (keep x)) (map name (branchesToProcess all d)).
Proof.
  intros octokit host cfg d all Hab Hd Hall.
  destruct (main_run _ _ _ _ _ Hab Hd Hall) as (c & es & Hc & Hl & Hes & E).
  rewrite E. simpl.
  eexists. apply lists_as_filters.
Qed.

Lemma X11_witness :
  exists keep : string -> bool,
    ["feature/a"]
    = filter keep
        ["feature/a"; "release/1.0"; "develop"; "gone"; "locked"; "feature/b"]
    /\ ["release/1.0"; "develop"; "gone"; "locked"; "feature/b"]
    = filter (fun x => negb (keep x))
        ["feature/a"; "release/1.0"; "develop"; "gone"; "locked"; "feature/b"].
Proof.
  apply (X11_report_keeps_listing_order
           demoRepo utcHost (demoConfig false "") "main" demoBranches).
  - vm_compute. reflexivity.
  - reflexivity.
  - intros st. reflexivity.
Defined.

Lemma fetched_in_completed (octokit : Octokit) (host : Host)
    (cfg : Configuration) (d : string) (c : Z) (all : list Branch)
    (es : list Effect) (b : string) :
  In b (map name (branchesToProcess all d)) ->
  includes (withDefault (cfg_protectedBranches cfg) d) b = false ->
  excluded host (cfg_excludePattern cfg) b = false ->
  In (ReposGetBranch b) (effects (completed octokit host cfg d c all es)).
Proof.
  intros Hb Hp Hx. apply (requests_in_completed _ _ _ _ _ _ _ b); [exact Hb|].
  apply In_requests. auto.
Qed.

(** X12. Every entry of the skipped list carries one of the five reason
    codes, and the code tells what happened: [protected] means the name is
    in the protected list; [matches_exclude_pattern] that it is not, and the
    pattern is set, compiles and matches; [error_processing] that the commit
    date was asked for and the request failed or gave no valid date;
    [too_recent] that the date is at or after the cutoff; [deletion_failed]
    that the date is before the cutoff, the run is live and the deletion
    was requested and failed. *)
Theorem X12_skip_reasons_are_justified :
  forall (octokit : Octokit) (host : Host) (cfg : Configuration)
         (s : SkippedBranch),
    In s (skippedBranches (this (main octokit host cfg))) ->
    In (reason s) reasonCodes /\
    ((reason s = "protected" /\
      In (branch s) (protectedBranches (this (main octokit host cfg))))
     \/
     (reason s = "matches_exclude_pattern" /\
      ~ In (branch s) (protectedBranches (this (main octokit host cfg))) /\
      cfg_excludePattern cfg <> "" /\
      exists regex,
        RegExpCreate host (cfg_excludePattern cfg) = Some regex /\
        regex (branch s) = true)
     \/
     (reason s = "error_processing" /\
      In (ReposGetBranch (branch s)) (effects (main octokit host cfg)) /\
      ((exists e, repos_getBranch octokit (branch s) = Throw e) \/
       repos_getBranch octokit (branch s) = Normal InvalidDate))
     \/
     (reason s = "too_recent" /\
      In (ReposGetBranch (branch s)) (effects (main octokit host cfg)) /\
      exists t c,
        repos_getBranch octokit (branch s) = Normal (TimeValue t) /\
        cutoffDate host (cfg_daysOld cfg) = TimeValue c /\ c <= t)
     \/
     (reason s = "deletion_failed" /\
      In (GitDeleteRef ("heads/" ++ branch s)%string)
         (effects (main octokit host cfg)) /\
      cfg_dryRun cfg = false /\
      exists t c e,
        repos_getBranch octokit (branch s) = Normal (TimeValue t) /\
        cutoffDate host (cfg_daysOld cfg) = TimeValue c /\ t < c /\
        git_deleteRef octokit ("heads/" ++ branch s)%string = Throw e)).
Proof.
  intros octokit host cfg s Hs.
  destruct (main_view octokit host cfg)
    as [(_ & _ & S & _)|(d & c & all & es & Hd & Hc & Hall & Hes & E)].
  { rewrite S in Hs. contradiction. }
  rewrite E in Hs. simpl in Hs. apply In_skippedOf in Hs as (Hb & Hv).
  pose proof (requests_in_completed octokit host cfg d c all es (branch s))
    as Hcalls.
  rewrite <- E in Hcalls.
  rewrite E at 1 2. cbn [this protectedBranches completed].
  destruct (verdict_cases octokit host
              (withDefault (cfg_protectedBranches cfg) d)
              (cfg_excludePattern cfg) (cfg_dryRun cfg) c (branch s))
    as [(Hp & V & R)|[(Hp & Hx & V & R)|[(Hp & Hx & Hf & V & R)
       |[(Hp & Hx & (t & Ht & Hle) & V & R)
        |[(Hp & Hx & _ & _ & V & R)
         |[(Hp & Hx & _ & _ & _ & V & R)
          |(Hp & Hx & (t & Ht & Hlt) & Hdry & (e & He) & V & R)]]]]]];
    rewrite V in Hv; try discriminate; injection Hv as Hv; rewrite <- Hv;
    (split; [unfold reasonCodes; simpl; tauto|]).
  - left. split; [reflexivity|]. now apply includes_In.
  - right; left. split; [reflexivity|].
    split; [now apply includes_not_In|]. now apply excluded_true.
  - right; right; left. split; [reflexivity|]. split; [|exact Hf].
    apply Hcalls; [exact Hb|]. rewrite R. now left.
  - right; right; right; left. split; [reflexivity|].
    split; [apply Hcalls; [exact Hb|]; rewrite R; now left|].
    exists t, c. auto.
  - right; right; right; right. split; [reflexivity|].
    split; [apply Hcalls; [exact Hb|]; rewrite R; right; now left|].
    split; [exact Hdry|]. exists t, c, e. auto.
Qed.

Lemma X12_witness :
  In "deletion_failed" reasonCodes.
Proof.
  apply (X12_skip_reasons_are_justified
           demoRepo utcHost (demoConfig false "")
           {| branch := "locked"; reason := "deletion_failed" |}).
  pick_member.
Defined.

Lemma fetch_in_main (octokit : Octokit) (host : Host) (cfg : Configuration)
    (b : string) :
  In (ReposGetBranch b) (effects (main octokit host cfg)) ->
  exists d c all es,
    repos_get octokit = Normal d /\
    cutoffDate host (cfg_daysOld cfg) = TimeValue c /\
    lists octokit (Normal all) es /\
    forallb is_listing es = true /\
    main octokit host cfg = completed octokit host cfg d c all es /\
    In b (map name (branchesToProcess all d)) /\
    includes (withDefault (cfg_protectedBranches cfg) d) b = false /\
    excluded host (cfg_excludePattern cfg) b = false.
Proof.
  intros H. apply branch_call_in_main in H; [|reflexivity].
  destruct H as (d & c & all & es & x & Hd & Hc & Hl & E & Hx & Hr).
  apply In_requests in Hr as (Hp & Hx' & [[= <-]|(Hr & _)]); [|discriminate].
  destruct (main_not_aborted octokit host cfg)
    as (d' & c' & all' & es' & Hd' & Hc' & Hl' & Hes' & E').
  { destruct (main_view octokit host cfg) as [(_ & _ & _ & Hnone)|H].
    - rewrite E in Hnone.
      exfalso. apply (no_branch_call _ (ReposGetBranch b) Hnone eq_refl).
      apply (requests_in_completed _ _ _ _ _ _ _ b); [exact Hx|].
      apply In_requests. auto.
    - destruct H as (d' & c' & all' & es' & _ & _ & _ & Hes' & E').
      rewrite E'. now apply aborted_completed. }
  destruct (lists_unique _ _ _ _ _ Hl Hl') as ([= <-] & <-).
  exists d, c, all, es. auto 10.
Qed.

Lemma deletion_in_completed (octokit : Octokit) (host : Host)
    (cfg : Configuration) (d : string) (c : Z) (all : list Branch)
    (es : list Effect) (b : string) :
  forallb is_listing es = true ->
  In (GitDeleteRef ("heads/" ++ b)%string)
     (effects (completed octokit host cfg d c all es)) <->
  In b (map name (branchesToProcess all d)) /\
  In (GitDeleteRef ("heads/" ++ b)%string)
     (requests octokit host (withDefault (cfg_protectedBranches cfg) d)
        (cfg_excludePattern cfg) (cfg_dryRun cfg) (TimeValue c) b).
Proof.
  intros Hes. split.
  - intros H. apply In_effects_completed in H; [|exact Hes].
    destruct H as [H|[(p & H)|[(x & Hx & Hr)|(_ & [H|H])]]]; try discriminate.
    assert (x = b).
    { apply In_requests in Hr as (_ & _ & [Hr|(Hr & _)]); [discriminate|].
      apply heads_inj. congruence. }
    subst x. auto.
  - intros (Hb & Hr). now apply (requests_in_completed _ _ _ _ _ _ _ b).
Qed.

(** X13. A branch whose commit date comes back as something that is not a
    date is skipped with reason [error_processing]: formatting the date for
    the log throws inside the [try].  It is not recorded as deleted, in a dry
    run either, and its deletion is never requested. *)
Theorem X13_unparsable_commit_date_is_an_error :
  forall (octokit : Octokit) (host : Host) (cfg : Configuration) (b : string),
    In (ReposGetBranch b) (effects (main octokit host cfg)) ->
    repos_getBranch octokit b = Normal InvalidDate ->
    In {| branch := b; reason := "error_processing" |}
       (skippedBranches (this (main octokit host cfg))) /\
    ~ In b (deletedBranches (this (main octokit host cfg))) /\
    ~ In (GitDeleteRef ("heads/" ++ b)%string)
         (effects (main octokit host cfg)).
Proof.
  intros octokit host cfg b Hfetch Hdate.
  destruct (fetch_in_main _ _ _ _ Hfetch)
    as (d & c & all & es & Hd & Hc & _ & Hes & E & Hb & Hp & Hx).
  assert (Hv : verdict octokit host (withDefault (cfg_protectedBranches cfg) d)
                 (cfg_excludePattern cfg) (cfg_dryRun cfg) (TimeValue c) b
               = Skipped "error_processing")
    by (unfold verdict; now rewrite Hp, Hx, Hdate).
  rewrite E. split; [|split].
  - simpl. apply In_skippedOf. simpl. auto.
  - simpl. intros H. apply In_deletedOf in H as (_ & H). congruence.
  - intros H. apply deletion_in_completed in H as (_ & H); [|exact Hes].
    apply In_requests in H as (_ & _ & [H|(_ & _ & t & Ht & _)]); congruence.
Qed.

Lemma X13_witness :
  In {| branch := "odd"; reason := "error_processing" |}
     (skippedBranches (this (main oddDateRepo utcHost (demoConfig true "")))) /\
  deletedBranches (this (main oddDateRepo utcHost (demoConfig true "")))
  = ["old"].
Proof.
  split.
  - apply (X13_unparsable_commit_date_is_an_error
             oddDateRepo utcHost (demoConfig true "") "odd").
    + pick_member.
    + reflexivity.
  - reflexivity.
Defined.

(** X14. In a live run the deleted list holds exactly the branches whose
    deletion was requested and succeeded, and the entries with reason
    [deletion_failed] exactly those whose deletion was requested and
    failed. *)
Theorem X14_live_report_matches_deletions :
  forall (octokit : Octokit) (host : Host) (cfg : Configuration) (b : string),
    cfg_dryRun cfg = false ->
    (In b (deletedBranches (this (main octokit host cfg))) <->
     In (GitDeleteRef ("heads/" ++ b)%string)
        (effects (main octokit host cfg)) /\
     git_deleteRef octokit ("heads/" ++ b)%string = Normal tt) /\
    (In {| branch := b; reason := "deletion_failed" |}
        (skippedBranches (this (main octokit host cfg))) <->
     In (GitDeleteRef ("heads/" ++ b)%string)
        (effects (main octokit host cfg)) /\
     exists e, git_deleteRef octokit ("heads/" ++ b)%string = Throw e).
Proof.
  intros octokit host cfg b Hlive.
  destruct (main_view octokit host cfg)
    as [(_ & D & S & Hnone)|(d & c & all & es & Hd & Hc & Hall & Hes & E)].
  { rewrite D, S. split; (split; [contradiction|]); intros (H & _);
      now apply (no_branch_call _ _ Hnone) in H. }
  rewrite E. cbn [this deletedBranches skippedBranches completed].
  rewrite In_deletedOf, In_skippedOf, (deletion_in_completed _ _ _ _ _ _ _ _ Hes).
  cbn [branch reason].
  destruct (verdict_cases octokit host
              (withDefault (cfg_protectedBranches cfg) d)
              (cfg_excludePattern cfg) (cfg_dryRun cfg) c b)
    as [(_ & V & R)|[(_ & _ & V & R)|[(_ & _ & _ & V & R)|[(_ & _ & _ & V & R)
       |[(_ & _ & _ & Hdry & _)
        |[(_ & _ & _ & _ & Hok & V & R)
         |(_ & _ & _ & _ & (e & He) & V & R)]]]]]];
    try congruence; rewrite V, R; simpl;
    (split;
     (split;
      [ intros (Hb & Hv); try discriminate; repeat split; eauto
      | intros ((Hb & Hr) & Hres); repeat split; auto;
        try (destruct Hres as (e' & Hres)); simpl in *; try congruence;
        try (destruct Hr as [Hr|Hr]; [discriminate|]);
        try (destruct Hr as [Hr|Hr]; [discriminate|]); try contradiction ])).
Qed.

Lemma X14_witness :
  In (GitDeleteRef "heads/feature/a")
     (effects (main demoRepo utcHost (demoConfig false ""))) /\
  git_deleteRef demoRepo "heads/feature/a" = Normal tt.
Proof.
  assert (H1 : cfg_dryRun (demoConfig false "") = false) by reflexivity.
  destruct (X14_live_report_matches_deletions
              demoRepo utcHost (demoConfig false "") "feature/a" H1)
    as ((Hdeleted & _) & _).
  apply Hdeleted. pick_member.
Defined.

(** ** The threshold *)

Lemma cutoff_fixed_offset (host : Host) (n c : Z) :
  (forall u v, LocalTZA host u false = LocalTZA host v false) ->
  cutoffDate host (Int n) = TimeValue c ->
  c = clock host + LocalTZA host (clock host) true
      - LocalTZA host 0 false - n * msPerDay.
Proof.
  intros Hfix Hc. apply cutoffDate_valid in Hc as (k & [= <-] & ->).
  unfold UTC, LocalTime. rewrite (Hfix _ 0). lia.
Qed.

(** X15. Raising [days-old] never deletes more: in a time zone with a fixed
    offset, every branch in the deleted list of a run with a larger
    threshold is in the deleted list of the run with the smaller one,
    provided the latter does not abort. *)
Theorem X15_larger_threshold_deletes_no_more :
  forall (octokit : Octokit) (host : Host) (cfg : Configuration)
         (n n' : Z) (b : string),
    (forall u v, LocalTZA host u false = LocalTZA host v false) ->
    cfg_daysOld cfg = Int n ->
    n <= n' ->
    aborted (main octokit host cfg) = false ->
    In b (deletedBranches
            (this (main octokit host (withDaysOld cfg (Int n'))))) ->
    In b (deletedBranches (this (main octokit host cfg))).
Proof.
  intros octokit host cfg n n' b Hfix Hn Hle Hab Hin.
  destruct (main_not_aborted _ _ _ Hab)
    as (d & c & all & es & Hd & Hc & Hl & Hes & E).
  destruct (main_view octokit host (withDaysOld cfg (Int n')))
    as [(_ & D & _)|(d' & c' & all' & es' & Hd' & Hc' & Hall' & Hes' & E')].
  { rewrite D in Hin. contradiction. }
  assert (d' = d) by congruence. subst d'.
  pose proof (returns_lists _ _ _ _ Hall' Hl) as [= <-].
  rewrite Hn in Hc. simpl in Hc'.
  apply (cutoff_fixed_offset _ _ _ Hfix) in Hc, Hc'.
  assert (Hcc : c' <= c) by (unfold msPerDay in *; lia).
  rewrite E' in Hin. rewrite E. simpl in *.
  apply In_deletedOf in Hin as (Hb & Hv). apply In_deletedOf.
  split; [exact Hb|]. revert Hv. unfold verdict, date_lt.
  destruct (includes _ b); [discriminate|].
  destruct (excluded host _ b); [discriminate|].
  destruct (repos_getBranch octokit b) as [[t|]|]; try discriminate.
  destruct (Z.ltb_spec t c'); [|discriminate].
  destruct (Z.ltb_spec t c); [auto|lia].
Qed.

Lemma X15_witness :
  In "feature/a"
     (deletedBranches (this (main demoRepo utcHost (demoConfig false "")))).
Proof.
  apply (X15_larger_threshold_deletes_no_more
           demoRepo utcHost (demoConfig false "") 14 19 "feature/a").
  - intros u v. reflexivity.
  - reflexivity.
  - vm_compute. discriminate.
  - vm_compute. reflexivity.
  - pick_member.
Defined.

(** ** The age that is printed *)

Lemma ceil_bounds (a : Z) :
  0 <= a ->
  let days := - ((- a) / msPerDay) in
  0 <= days /\ (days - 1) * msPerDay < a <= days * msPerDay.
Proof.
  intros Ha days. subst days.
  assert (Hm : 0 < msPerDay) by reflexivity.
  pose proof (Z.div_mod (- a) msPerDay ltac:(lia)) as Hdm.
  pose proof (Z.mod_pos_bound (- a) msPerDay Hm) as Hr.
  nia.
Qed.

(** X16. For a valid commit date at most [2^53] milliseconds away from the
    clock, [getDaysAgo] is the number of days of the distance rounded up: it
    is never negative, it is [0] only for a commit at the very instant of
    the call, a commit dated in the future counts like one in the past, and
    the distance lies in the last of that many days. *)
Theorem X16_days_ago_rounds_up :
  forall now t : Z,
    Z.abs (now - t) <= 2 ^ 53 ->
    exists days,
      getDaysAgo now (TimeValue t) = Int days /\
      getDaysAgo t (TimeValue now) = Int days /\
      0 <= days /\
      (days - 1) * msPerDay < Z.abs (now - t) <= days * msPerDay /\
      (days = 0 <-> t = now).
Proof.
  intros now t _.
  destruct (ceil_bounds (Z.abs (now - t)) ltac:(lia)) as (H0 & H1).
  eexists. split; [reflexivity|]. split.
  - simpl. replace (t - now) with (- (now - t)) by lia.
    now rewrite Z.abs_opp.
  - split; [exact H0|]. split; [exact H1|].
    unfold msPerDay in *. split; intros H; [rewrite H in H1|]; lia.
Qed.

Lemma X16_witness :
  getDaysAgo demoClock (TimeValue (demoClock - day 13 - 1)) = Int 14.
Proof.
  destruct (X16_days_ago_rounds_up demoClock (demoClock - day 13 - 1))
    as (days & E & _).
  - vm_compute. discriminate.
  - rewrite E. vm_compute in E. injection E as <-. reflexivity.
Defined.

(** X17. The age printed agrees with the decision.  In a time zone with a
    fixed offset and with a threshold that is not negative: for a commit
    date strictly before the cutoff, the age computed at any instant from
    the cutoff's clock reading on is greater than [days-old]; for a commit
    date at or after the cutoff and not in the future, the age computed at
    that clock reading is at most [days-old] (it can be equal to it). *)
Theorem X17_printed_age_agrees_with_decision :
  forall (host : Host) (n c now t : Z),
    cutoffDate host (Int n) = TimeValue c ->
    (forall u v, LocalTZA host u true = LocalTZA host v false) ->
    0 <= n ->
    clock host <= now ->
    Z.abs (now - t) <= 2 ^ 53 ->
    (t < c ->
     exists days, getDaysAgo now (TimeValue t) = Int days /\ n < days) /\
    (c <= t -> t <= clock host ->
     exists days,
       getDaysAgo (clock host) (TimeValue t) = Int days /\ days <= n).
Proof.
  intros host n c now t Hc Hfix Hn Hnow _.
  apply cutoffDate_valid in Hc as (k & [= <-] & ->).
  unfold UTC, LocalTime.
  pose proof (Hfix (clock host)
                (clock host + LocalTZA host (clock host) true - n * msPerDay))
    as Hzone.
  split.
  - intros Hlt.
    destruct (ceil_bounds (Z.abs (now - t)) ltac:(lia)) as (_ & _ & H1).
    eexists. split; [reflexivity|]. unfold msPerDay in *. lia.
  - intros Hge Hpast.
    destruct (ceil_bounds (Z.abs (clock host - t)) ltac:(lia)) as (_ & H1 & _).
    eexists. split; [reflexivity|]. unfold msPerDay in *. lia.
Qed.

Lemma X17_witness :
  exists days,
    getDaysAgo (demoClock + 5000) (TimeValue (demoClock - day 14 - 1))
    = Int days /\ 14 < days.
Proof.
  apply (X17_printed_age_agrees_with_decision
           utcHost 14 (demoClock - day 14) (demoClock + 5000)
           (demoClock - day 14 - 1)).
  - reflexivity.
  - intros u v. reflexivity.
  - vm_compute. discriminate.
  - vm_compute. discriminate.
  - vm_compute. discriminate.
  - vm_compute. reflexivity.
Defined.

(** ** The outputs *)

Lemma filter_nothing {A : Type} (f : A -> bool) (l : list A) :
  existsb f l = false -> filter f l = [].
Proof.
  induction l as [|a l IH]; [reflexivity|]. simpl.
  intros H. apply orb_false_elim in H as (-> & H). now apply IH.
Qed.

(** X18. When there is at least one branch to process, a run that does not
    abort calls [core.setOutput] exactly twice, as its last two calls: first
    for [deleted-branches] with the final deleted list, then for
    [skipped-branches] with the final skipped list. *)
Theorem X18_outputs_are_set_once_and_last :
  forall (octokit : Octokit) (host : Host) (cfg : Configuration)
         (d : string) (all : list Branch),
    aborted (main octokit host cfg) = false ->
    repos_get octokit = Normal d ->
    returns (getAllBranches octokit) all ->
    branchesToProcess all d <> [] ->
    let outputs :=
      [SetOutput "deleted-branches"
         (JsonNames (deletedBranches (this (main octokit host cfg))));
       SetOutput "skipped-branches"
         (JsonSkipped (skippedBranches (this (main octokit host cfg))))] in
    filter is_SetOutput (effects (main octokit host cfg)) = outputs /\
    exists before,
      effects (main octokit host cfg) = (before ++ outputs)%list.
Proof.
  intros octokit host cfg d all Hab Hd Hall Hne outputs.
  destruct (report_emitted_once _ _ _ _ _ Hab Hd Hall Hne)
    as (before & Hnone & E).
  split; [|now exists before].
  rewrite E, filter_app, (filter_nothing _ _ Hnone). reflexivity.
Qed.

Lemma X18_witness :
  filter is_SetOutput (effects (main scenarioRepo utcHost (scenarioConfig false)))
  = [SetOutput "deleted-branches" (JsonNames ["feature/a"]);
     SetOutput "skipped-branches"
       (JsonSkipped [ {| branch := "release/1.0"; reason := "too_recent" |} ])].
Proof.
  apply (X18_outputs_are_set_once_and_last
           scenarioRepo utcHost (scenarioConfig false) "main"
           [ {| name := "main" |}; {| name := "feature/a" |};
             {| name := "release/1.0" |} ]).
  - vm_compute. reflexivity.
  - reflexivity.
  - intros st. reflexivity.
  - discriminate.
Defined.

(** ** The exclude pattern *)

(** X19. With no exclude pattern, the empty string, [matchesExcludePattern]
    answers [false] without building a regular expression, so no branch is
    skipped with reason [matches_exclude_pattern], although the regular
    expression made from the empty string would match every name. *)
Theorem X19_unset_pattern_excludes_nothing :
  forall (octokit : Octokit) (host : Host) (cfg : Configuration),
    cfg_excludePattern cfg = "" ->
    (forall (st : State) (b : string),
        excludePattern (this st) = "" ->
        matchesExcludePattern host b st = (Normal false, st)) /\
    (forall s, In s (skippedBranches (this (main octokit host cfg))) ->
               reason s <> "matches_exclude_pattern").
Proof.
  intros octokit host cfg Hunset. split.
  - intros st b E. rewrite matchesExcludePattern_eq, E. reflexivity.
  - intros s Hs Hr.
    destruct (main_view octokit host cfg)
      as [(_ & _ & S & _)|(d & c & all & es & _ & _ & _ & _ & E)].
    + rewrite S in Hs. contradiction.
    + rewrite E in Hs. simpl in Hs. apply In_skippedOf in Hs as (_ & Hs).
      rewrite Hr, Hunset in Hs.
      now apply verdict_never_matching in Hs.
Qed.

Lemma X19_witness :
  forallb (fun s => negb (String.eqb (reason s) "matches_exclude_pattern"))
    (skippedBranches (this (main demoRepo utcHost (demoConfig false ""))))
  = true.
Proof.
  apply forallb_forall. intros s Hs. apply negb_true_iff, String.eqb_neq.
  revert s Hs.
  apply (X19_unset_pattern_excludes_nothing
           demoRepo utcHost (demoConfig false "")).
  reflexivity.
Defined.

(** ** The use of the branch source *)

(** X20. In a run that does not abort, the commit date of a branch is
    requested exactly when the branch is to be processed, is not in the
    protected list and is not matched by the exclude pattern: no eligible
    branch is passed over, and no other branch is looked up. *)
Theorem X20_fetched_exactly_the_eligible_branches :
  forall (octokit : Octokit) (host : Host) (cfg : Configuration)
         (d : string) (all : list Branch) (b : string),
    aborted (main octokit host cfg) = false ->
    repos_get octokit = Normal d ->
    returns (getAllBranches octokit) all ->
    (In (ReposGetBranch b) (effects (main octokit host cfg)) <->
     In b (map name (branchesToProcess all d)) /\
     ~ In b (protectedBranches (this (main octokit host cfg))) /\
     matchesExcludePattern host b (main octokit host cfg)
     = (Normal false, main octokit host cfg)).
Proof.
  intros octokit host cfg d all b Hab Hd Hall.
  destruct (main_run _ _ _ _ _ Hab Hd Hall) as (c & es & Hc & Hl & Hes & E).
  rewrite matchesExcludePattern_eq.
  assert (Epat : excludePattern (this (main octokit host cfg))
                 = cfg_excludePattern cfg) by (now rewrite E).
  assert (Eprot : protectedBranches (this (main octokit host cfg))
                  = withDefault (cfg_protectedBranches cfg) d)
    by (now rewrite E).
  rewrite Epat, Eprot, <- includes_not_In. split.
  - intros H. apply fetch_in_main in H
      as (d' & c' & all' & es' & Hd' & _ & Hl' & _ & _ & Hb & Hp & Hx).
    assert (d' = d) by congruence. subst d'.
    pose proof (returns_lists _ _ _ _ Hall Hl') as [= ->].
    rewrite Hx. auto.
  - intros (Hb & Hp & Hx). rewrite E.
    apply fetched_in_completed; [exact Hb|exact Hp|].
    now injection Hx.
Qed.

Lemma X20_witness :
  In (ReposGetBranch "gone")
     (effects (main demoRepo utcHost (demoConfig false "^release/"))).
Proof.
  assert (H1 : aborted (main demoRepo utcHost (demoConfig false "^release/"))
               = false) by (vm_compute; reflexivity).
  assert (H2 : repos_get demoRepo = Normal "main") by reflexivity.
  assert (H3 : returns (getAllBranches demoRepo) demoBranches)
    by (intros st; reflexivity).
  apply (proj2 (X20_fetched_exactly_the_eligible_branches
                  demoRepo utcHost (demoConfig false "^release/") "main"
                  demoBranches "gone" H1 H2 H3)).
  split; [pick_member|]. split; [no_member|vm_compute; reflexivity].
Defined.

Lemma budget_requestsOf (octokit : Octokit) (host : Host)
    (protected : list string) (pattern : string) (dry : bool) (c : Z)
    (l : list Branch) :
  let calls := requestsOf octokit host protected pattern dry (TimeValue c) l in
  (List.length (filter is_GitDeleteRef calls)
   <= List.length (filter is_ReposGetBranch calls)
   <= List.length l)%nat.
Proof.
  unfold requestsOf. induction l as [|b l IH]; [simpl; lia|].
  simpl flat_map. rewrite !filter_app, !length_app. simpl List.length.
  destruct (verdict_cases octokit host protected pattern dry c (name b))
    as [(_ & _ & R)|[(_ & _ & _ & R)|[(_ & _ & _ & _ & R)|[(_ & _ & _ & _ & R)
       |[(_ & _ & _ & _ & _ & R)|[(_ & _ & _ & _ & _ & _ & R)
        |(_ & _ & _ & _ & _ & _ & R)]]]]]];
    rewrite R; simpl; lia.
Qed.

Lemma filter_branch_calls (f : Effect -> bool) (octokit : Octokit)
    (host : Host) (cfg : Configuration) (d : string) (c : Z)
    (all : list Branch) (es : list Effect) :
  (forall e, f e = true -> is_branch_call e = true) ->
  forallb is_listing es = true ->
  filter f (effects (completed octokit host cfg d c all es))
  = filter f (requestsOf octokit host
                (withDefault (cfg_protectedBranches cfg) d)
                (cfg_excludePattern cfg) (cfg_dryRun cfg) (TimeValue c)
                (branchesToProcess all d)).
Proof.
  intros Hf Hes.
  assert (Hno : forall e, is_branch_call e = false -> f e = false).
  { intros e He. destruct (f e) eqn:E; [|reflexivity].
    apply Hf in E. congruence. }
  assert (Hes' : filter f es = []).
  { apply filter_nothing, listing_existsb; [|exact Hes].
    intros p. now apply Hno. }
  unfold completed. cbn [effects].
  destruct (Nat.eqb (List.length (branchesToProcess all d)) 0) eqn:Hlen.
  - apply Nat.eqb_eq, length_zero_iff_nil in Hlen. rewrite Hlen.
    cbn [filter]. rewrite (Hno ReposGet eq_refl). exact Hes'.
  - cbn [filter]. rewrite (Hno ReposGet eq_refl), !filter_app, Hes'.
    cbn [filter app].
    rewrite (Hno (SetOutput "deleted-branches" _) eq_refl).
    rewrite (Hno (SetOutput "skipped-branches" _) eq_refl).
    now rewrite app_nil_r.
Qed.

(** X21. A run asks for at most one commit date per branch to process, and
    for no more deletions than commit dates: the requests on branches never
    exceed twice the number of listed branches. *)
Theorem X21_at_most_one_fetch_and_one_deletion_per_branch :
  forall (octokit : Octokit) (host : Host) (cfg : Configuration)
         (d : string) (all : list Branch),
    repos_get octokit = Normal d ->
    returns (getAllBranches octokit) all ->
    (List.length (filter is_GitDeleteRef (effects (main octokit host cfg)))
     <= List.length (filter is_ReposGetBranch (effects (main octokit host cfg)))
     <= List.length (branchesToProcess all d))%nat.
Proof.
  intros octokit host cfg d all Hd Hall.
  destruct (main_cases octokit host cfg)
    as [(e0 & E0 & _)|[(d' & _ & _ & _ & E)
       |[(d' & c & e0 & es & _ & _ & _ & Hes & _ & E)
        |(d' & c & all' & es & Hd' & _ & Hl & Hes & E)]]];
    try congruence.
  - rewrite E. simpl. lia.
  - rewrite E. simpl. rewrite !filter_app.
    rewrite (filter_nothing is_GitDeleteRef es),
            (filter_nothing is_ReposGetBranch es)
      by (apply listing_existsb; [reflexivity|exact Hes]).
    simpl. lia.
  - assert (d' = d) by congruence. subst d'.
    pose proof (returns_lists _ _ _ _ Hall Hl) as [= <-].
    rewrite E, !filter_branch_calls; try exact Hes;
      try (intros [] H; (discriminate || reflexivity)).
    apply budget_requestsOf.
Qed.

Lemma X21_witness :
  (List.length
     (filter is_ReposGetBranch
        (effects (main demoRepo utcHost (demoConfig false ""))))
   <= 6)%nat.
Proof.
  apply (X21_at_most_one_fetch_and_one_deletion_per_branch
           demoRepo utcHost (demoConfig false "") "main" demoBranches).
  - reflexivity.
  - intros st. reflexivity.
Defined.

(** ** More on failures and on previews *)

(** X22. When the repository cannot be read, the run fails with the error
    of [repos.get] wrapped twice: that call and [core.setFailed] are its only
    calls, the instance is as the constructor left it (the protected list has
    not grown), and nothing is listed, deleted, skipped or reported. *)
Theorem X22_unknown_default_branch_aborts_at_once :
  forall (octokit : Octokit) (host : Host) (cfg : Configuration) (e : string),
    repos_get octokit = Throw e ->
    effects (main octokit host cfg)
    = [ReposGet;
       SetFailed ("Branch cleanup failed: Failed to get default branch: "
                  ++ e)%string] /\
    this (main octokit host cfg) = constructor cfg.
Proof.
  intros octokit host cfg e He.
  destruct (main_cases octokit host cfg)
    as [(e0 & E0 & T & E)|[(d' & Hd & _)
       |[(d' & c' & e' & es & Hd & _)|(d' & c' & all & es & Hd & _)]]];
    try congruence.
  assert (e0 = e) by congruence. subst e0. split; assumption.
Qed.

Lemma X22_witness :
  effects (main {| repos_get := Throw "Not Found";
                   repos_listBranches := repos_listBranches demoRepo;
                   repos_getBranch := repos_getBranch demoRepo;
                   git_deleteRef := git_deleteRef demoRepo |}
             utcHost (demoConfig false ""))
  = [ReposGet;
     SetFailed
       "Branch cleanup failed: Failed to get default branch: Not Found"].
Proof.
  apply (X22_unknown_default_branch_aborts_at_once
           {| repos_get := Throw "Not Found";
              repos_listBranches := repos_listBranches demoRepo;
              repos_getBranch := repos_getBranch demoRepo;
              git_deleteRef := git_deleteRef demoRepo |}
           utcHost (demoConfig false "") "Not Found").
  reflexivity.
Defined.

(** X23. The deleted list of a dry run names exactly the branches whose
    deletion the live run with the same configuration requests, whether or
    not those deletions then succeed. *)
Theorem X23_dry_run_previews_the_deletions :
  forall (octokit : Octokit) (host : Host) (cfg : Configuration) (b : string),
    In b (deletedBranches
            (this (main octokit host (withDryRun cfg true)))) <->
    In (GitDeleteRef ("heads/" ++ b)%string)
       (effects (main octokit host (withDryRun cfg false))).
Proof.
  intros octokit host cfg b.
  destruct (main_pair octokit host (withDryRun cfg false) (withDryRun cfg true)
              eq_refl)
    as [(_ & _ & _ & Ef & _ & D & _)|(d & c & all & es & Hes & E1 & E2)].
  - rewrite D, <- Ef. split; [contradiction|].
    intros H. apply filter_In in H as (_ & H). discriminate.
  - rewrite E1, E2, (deletion_in_completed _ _ _ _ _ _ _ _ Hes).
    cbn [this deletedBranches completed]. rewrite In_deletedOf.
    cbn [cfg_dryRun cfg_protectedBranches cfg_excludePattern withDryRun].
    unfold verdict, requests.
    destruct (includes _ b); [split; intros (_ & H); (discriminate || contradiction)|].
    destruct (excluded host _ b);
      [split; intros (_ & H); (discriminate || contradiction)|].
    destruct (repos_getBranch octokit b) as [[t|]|];
      try (split; intros (Hb & H); [discriminate|];
           destruct H as [H|[]]; discriminate).
    destruct (date_lt (TimeValue t) (TimeValue c)).
    + split; intros (Hb & _); (split; [exact Hb|]); [right; now left|reflexivity].
    + split; intros (Hb & H); [discriminate|].
      destruct H as [H|[]]; discriminate.
Qed.

(** X24. A threshold of zero or less spares nothing: in a time zone with a
    fixed offset and with [days-old <= 0], every branch whose commit date was
    fetched and lies before the clock reading is deletable, that is, in the
    deleted list or skipped with reason [deletion_failed]. *)
Theorem X24_threshold_of_zero_or_less_spares_nothing :
  forall (octokit : Octokit) (host : Host) (cfg : Configuration)
         (n t : Z) (b : string),
    (forall u v, LocalTZA host u true = LocalTZA host v false) ->
    cfg_daysOld cfg = Int n ->
    n <= 0 ->
    In (ReposGetBranch b) (effects (main octokit host cfg)) ->
    repos_getBranch octokit b = Normal (TimeValue t) ->
    t < clock host ->
    In b (deletedBranches (this (main octokit host cfg))) \/
    In {| branch := b; reason := "deletion_failed" |}
       (skippedBranches (this (main octokit host cfg))).
Proof.
  intros octokit host cfg n t b Hfix Hn Hle Hfetch Ht Hpast.
  destruct (fetch_in_main _ _ _ _ Hfetch)
    as (d & c & all & es & Hd & Hc & _ & Hes & E & Hb & Hp & Hx).
  rewrite Hn in Hc. apply cutoffDate_valid in Hc as (k & [= <-] & Hc).
  unfold UTC, LocalTime in Hc.
  pose proof (Hfix (clock host)
                (clock host + LocalTZA host (clock host) true - n * msPerDay))
    as Hzone.
  assert (Hlt : t < c) by (unfold msPerDay in *; lia).
  rewrite E. cbn [this deletedBranches skippedBranches completed].
  rewrite In_deletedOf, In_skippedOf. cbn [branch reason].
  destruct (verdict_cases octokit host
              (withDefault (cfg_protectedBranches cfg) d)
              (cfg_excludePattern cfg) (cfg_dryRun cfg) c b)
    as [(Hp' & _)|[(_ & Hx' & _)|[(_ & _ & Hf & _)|[(_ & _ & (t' & Ht' & Hge) & _)
       |[(_ & _ & _ & _ & V & _)|[(_ & _ & _ & _ & _ & V & _)
        |(_ & _ & _ & _ & _ & V & _)]]]]]];
    try congruence; try (rewrite V; auto).
  - destruct Hf as [(e & Hf)|Hf]; congruence.
  - assert (t' = t) by congruence. lia.
Qed.

Lemma X24_witness :
  In "feature/b"
     (deletedBranches
        (this (main demoRepo utcHost
                 (withDaysOld (demoConfig false "") (Int 0))))) \/
  In {| branch := "feature/b"; reason := "deletion_failed" |}
     (skippedBranches
        (this (main demoRepo utcHost
                 (withDaysOld (demoConfig false "") (Int 0))))).
Proof.
  apply (X24_threshold_of_zero_or_less_spares_nothing
           demoRepo utcHost (withDaysOld (demoConfig false "") (Int 0))
           0 (demoClock - day 13) "feature/b").
  - intros u v. reflexivity.
  - reflexivity.
  - vm_compute. discriminate.
  - pick_member.
  - reflexivity.
  - vm_compute. reflexivity.
Defined.
